(** * Multi-axis bouncing probe: a model of [extras/multi_axis_probe.py]

    The Python module drives a contact probe along one of six directions,
    refines each contact with three approach/retract "bounces" and
    aggregates repeated samples under a tolerance-bounded retry policy.

    Conventions of the model.
    - Python floats are read as exact rationals ([Q]); results that the code
      obtains by arithmetic are compared with [==] ([Qeq]), values that the
      code hands on untouched with [=].
    - A position is the list [[x, y, z]] of the code; the extruder
      coordinate that the toolhead carries as a fourth element is never
      read or written by this module and is left out.
    - The session object, the three endstop wrappers and the toolhead are
      one explicit [State]; every method is a function in the monad [M]
      (state passing with Python exceptions).  Assignments made before an
      exception is raised stay in the state, as in Python.
    - The host (toolhead, homing, kinematics, G-code templates) is not part
      of the module; it is the parameter [Host] of the model.
    - [logging.info] and [respond_info] only print and are left out;
      [logging.exception] is kept as an event of the trace. *)

From Stdlib Require Import QArith Lqa Lia Sorted Permutation.
From stdpp Require Import gmap strings list.

Local Open Scope string_scope.
Local Open Scope list_scope.

(** ** Positions, axes and the direction table *)

(** The axis indices 0, 1 and 2 of [direction_types]. *)
Inductive Axis : Type := Axis0 | Axis1 | Axis2.

Definition axis_index (a : Axis) : nat :=
  match a with Axis0 => 0 | Axis1 => 1 | Axis2 => 2 end.

Record Position : Type := mkPos { pos_x : Q; pos_y : Q; pos_z : Q }.

(** [p[axis]] *)
Definition get_axis (p : Position) (a : Axis) : Q :=
  match a with Axis0 => pos_x p | Axis1 => pos_y p | Axis2 => pos_z p end.

(** [p[axis] = v] *)
Definition set_axis (p : Position) (a : Axis) (v : Q) : Position :=
  match a with
  | Axis0 => mkPos v (pos_y p) (pos_z p)
  | Axis1 => mkPos (pos_x p) v (pos_z p)
  | Axis2 => mkPos (pos_x p) (pos_y p) v
  end.

(** Python's [==] on two lists of floats. *)
Definition Position_eqb (p q : Position) : bool :=
  Qeq_bool (pos_x p) (pos_x q) && Qeq_bool (pos_y p) (pos_y q)
  && Qeq_bool (pos_z p) (pos_z q).

(** Coordinate-wise equality of rationals. *)
Definition Position_eq (p q : Position) : Prop :=
  (pos_x p == pos_x q)%Q /\ (pos_y p == pos_y q)%Q /\ (pos_z p == pos_z q)%Q.

Definition direction_types : gmap string (Axis * Z) :=
  list_to_map
    [("x+", (Axis0, 1%Z)); ("x-", (Axis0, (-1)%Z));
     ("y+", (Axis1, 1%Z)); ("y-", (Axis1, (-1)%Z));
     ("z+", (Axis2, 1%Z)); ("z-", (Axis2, (-1)%Z))].

Definition HINT_TIMEOUT : string := "
If the probe did not move far enough to trigger, then
consider reducing the Z axis minimum position so the probe
can travel further (the Z minimum position can be negative).
".

(** ** Python primitives used by the module *)

Definition Qltb (a b : Q) : bool := negb (Qle_bool b a).

(** [min(a, b)] and [max(a, b)]: the first argument wins a tie. *)
Definition py_min (a b : Q) : Q := if Qltb b a then b else a.
Definition py_max (a b : Q) : Q := if Qltb a b then b else a.

(** [sum(l)]: left to right, starting from 0. *)
Definition py_sum (l : list Q) : Q := fold_left Qplus l 0%Q.

(** [needle in hay] on strings. *)
Fixpoint contains (needle hay : string) : bool :=
  String.prefix needle hay ||
  match hay with
  | EmptyString => false
  | String _ rest => contains needle rest
  end.

(** [l[lo:hi]] with Python's treatment of negative and oversized bounds. *)
Definition slice_bound (n i : Z) : Z :=
  if (i <? 0)%Z then Z.max (i + n) 0 else Z.min i n.

Definition py_slice {A} (l : list A) (lo hi : Z) : list A :=
  let n := Z.of_nat (length l) in
  let lo' := slice_bound n lo in
  let hi' := slice_bound n hi in
  take (Z.to_nat (hi' - lo')) (drop (Z.to_nat lo') l).

(** [sorted(l, key=key)]: Python guarantees a stable sort that compares keys
    with [<]; a stable sort is determined by its specification (see
    [stable_sort_unique]), so it is modelled by stable insertion. *)
Section Sorted.
Context {A : Type} (key : A -> Q).

Fixpoint insert_sorted (x : A) (l : list A) : list A :=
  match l with
  | [] => [x]
  | y :: l' =>
      if Qltb (key y) (key x) then y :: insert_sorted x l' else x :: l
  end.

Fixpoint sorted (l : list A) : list A :=
  match l with
  | [] => []
  | x :: l' => insert_sorted x (sorted l')
  end.
End Sorted.

(** ** Exceptions and the state monad *)

Inductive Error : Type :=
  | command_error (msg : string)   (* printer.command_error, gcmd.error *)
  | param_error (name : string)    (* gcmd.get_float / get_int rejects a value *)
  | KeyError (key : string)
  | AttributeError (attr : string)
  | IndexError
  | ValueError
  | ZeroDivisionError
  | UnboundLocalError (var : string)
  | fuel_exhausted.                (* not a Python exception: the unrolling
                                      budget of a [while] loop of the model
                                      ran out; see [run_probe_loop_fuel] *)

Inductive Result (A : Type) : Type :=
  | Ok (a : A)
  | Raise (e : Error).
Arguments Ok {A} a.
Arguments Raise {A} e.

(** The three states of [ProbeEndstopWrapper.multi]. *)
Inductive MultiState : Type := OFF | FIRST | ON.

Record ProbeEndstopWrapper : Type := mkWrapper {
  stow_on_each_sample : bool;
  multi : MultiState
}.

(** What [homing.probing_move] does: stop at a contact position or fail
    with a [command_error] carrying [reason]. *)
Inductive ProbeOutcome : Type :=
  | Contact (epos : Position)
  | NoContact (reason : string).

(** The calls made to the host; a probing move is logged with what it
    returned. *)
Inductive Event : Type :=
  | ev_probing_move (axis : Axis) (pos : Position) (speed : Q)
      (outcome : ProbeOutcome)
  | ev_manual_move (coord : Position) (speed : Q)
  | ev_send_event (name : string) (pos : Position)
  | ev_deactivate_gcode
  | ev_log_exception (msg : string).

Record State : Type := mkState {
  multi_probe_pending : bool;          (* ProbeSessionHelper *)
  results : list Position;             (* ProbeSessionHelper *)
  mcu_probes : list ProbeEndstopWrapper;
  toolhead_position : Position;
  trace : list Event                   (* calls made to the host, oldest first *)
}.

Definition set_multi_probe_pending (b : bool) (s : State) : State :=
  mkState b (results s) (mcu_probes s) (toolhead_position s) (trace s).
Definition set_results (r : list Position) (s : State) : State :=
  mkState (multi_probe_pending s) r (mcu_probes s) (toolhead_position s) (trace s).
Definition set_mcu_probes (w : list ProbeEndstopWrapper) (s : State) : State :=
  mkState (multi_probe_pending s) (results s) w (toolhead_position s) (trace s).
Definition set_toolhead_position (p : Position) (s : State) : State :=
  mkState (multi_probe_pending s) (results s) (mcu_probes s) p (trace s).
Definition emit (e : Event) (s : State) : State :=
  mkState (multi_probe_pending s) (results s) (mcu_probes s)
          (toolhead_position s) (trace s ++ [e]).

Definition M (A : Type) : Type := State -> Result A * State.

Global Instance M_ret : MRet M := fun A a s => (Ok a, s).
Global Instance M_bind : MBind M := fun A B k m s =>
  match m s with
  | (Ok a, s') => k a s'
  | (Raise e, s') => (Raise e, s')
  end.

Definition raise {A} (e : Error) : M A := fun s => (Raise e, s).
Definition get_state : M State := fun s => (Ok s, s).
Definition modify (f : State -> State) : M unit := fun s => (Ok tt, f s).
Definition lift {A} (r : Result A) : M A := fun s => (r, s).

(** [try: m  except E: h] where [catches] says which exceptions [E] covers. *)
Definition try_except {A} (m : M A) (catches : Error -> bool)
    (h : Error -> M A) : M A := fun s =>
  match m s with
  | (Ok a, s') => (Ok a, s')
  | (Raise e, s') => if catches e then h e s' else (Raise e, s')
  end.

Definition is_command_error (e : Error) : bool :=
  match e with command_error _ => true | _ => false end.

(** [direction_types[direction]] *)
Definition lookup_direction (direction : string) : M (Axis * Z) :=
  match direction_types !! direction with
  | Some r => mret r
  | None => raise (KeyError direction)
  end.

(** ** The host and the configuration *)

(** The collaborators outside the module.  [probing_move_outcome n] answers
    the probing move made when the trace holds [n] events, so that the
    answer may depend on everything done before. *)
Record Host : Type := mkHost {
  homed_axes : string;                  (* toolhead.get_status()['homed_axes'] *)
  axis_minimum : option Position;       (* kin_status.get('axis_minimum') *)
  axis_maximum : option Position;       (* kin_status.get('axis_maximum') *)
  probing_move_outcome : nat -> Axis -> Position -> Q -> ProbeOutcome;
  manual_move_error : Position -> Q -> option string;
                                        (* a move the toolhead rejects *)
  deactivate_gcode : Position -> Position
                                        (* toolhead position after the script *)
}.

(** The fields that [ProbeSessionHelper.__init__] reads from the config. *)
Record Config : Type := mkConfig {
  cfg_speed : Q;
  cfg_lift_speed : Q;
  cfg_max_distance : Q;
  cfg_sample_count : Z;
  cfg_sample_retract_dist : Q;
  cfg_samples_result : string;
  cfg_samples_tolerance : Q;
  cfg_samples_retries : Z
}.

(** The parameters of a G-code command that [get_probe_params] looks at;
    [None] is a parameter that was not given. *)
Record GCodeCommand : Type := mkGcmd {
  PROBE_SPEED : option Q;
  MAX_DISTANCE : option Q;
  LIFT_SPEED : option Q;
  SAMPLES : option Z;
  SAMPLE_RETRACT_DIST : option Q;
  SAMPLES_TOLERANCE : option Q;
  SAMPLES_TOLERANCE_RETRIES : option Z;
  SAMPLES_RESULT : option string;
  DIRECTION : option string
}.

Definition dummy_gcode_cmd : GCodeCommand :=
  mkGcmd None None None None None None None None None.

(** The dictionary returned by [get_probe_params]. *)
Record Params : Type := mkParams {
  probe_speed : Q;
  lift_speed : Q;
  max_distance : Q;
  samples : Z;
  sample_retract_dist : Q;
  samples_tolerance : Q;
  samples_tolerance_retries : Z;
  samples_result : string
}.

(** [gcmd.get_float(name, default, above=a)], [minval=a] and
    [gcmd.get_int(name, default, minval=a)]: the default is returned as it
    is, a given value is checked. *)
Definition get_float_above (name : string) (v : option Q) (default a : Q)
    : Result Q :=
  match v with
  | None => Ok default
  | Some x => if Qle_bool x a then Raise (param_error name) else Ok x
  end.

Definition get_float_minval (name : string) (v : option Q) (default a : Q)
    : Result Q :=
  match v with
  | None => Ok default
  | Some x => if Qltb x a then Raise (param_error name) else Ok x
  end.

Definition get_int_minval (name : string) (v : option Z) (default a : Z)
    : Result Z :=
  match v with
  | None => Ok default
  | Some x => if (x <? a)%Z then Raise (param_error name) else Ok x
  end.

Definition result_bind {A B} (r : Result A) (k : A -> Result B) : Result B :=
  match r with Ok a => k a | Raise e => Raise e end.

Definition get_probe_params (cfg : Config) (gcmd : GCodeCommand)
    : Result Params :=
  result_bind (get_float_above "PROBE_SPEED" (PROBE_SPEED gcmd) (cfg_speed cfg) 0)
  (fun probe_speed =>
  result_bind (get_float_above "MAX_DISTANCE" (MAX_DISTANCE gcmd)
                 (cfg_max_distance cfg) 0)
  (fun max_distance =>
  result_bind (get_float_above "LIFT_SPEED" (LIFT_SPEED gcmd)
                 (cfg_lift_speed cfg) 0)
  (fun lift_speed =>
  result_bind (get_int_minval "SAMPLES" (SAMPLES gcmd) (cfg_sample_count cfg) 1)
  (fun samples =>
  result_bind (get_float_above "SAMPLE_RETRACT_DIST" (SAMPLE_RETRACT_DIST gcmd)
                 (cfg_sample_retract_dist cfg) 0)
  (fun sample_retract_dist =>
  result_bind (get_float_minval "SAMPLES_TOLERANCE" (SAMPLES_TOLERANCE gcmd)
                 (cfg_samples_tolerance cfg) 0)
  (fun samples_tolerance =>
  result_bind (get_int_minval "SAMPLES_TOLERANCE_RETRIES"
                 (SAMPLES_TOLERANCE_RETRIES gcmd) (cfg_samples_retries cfg) 0)
  (fun samples_retries =>
  let samples_result :=
    default (cfg_samples_result cfg) (SAMPLES_RESULT gcmd) in
  Ok (mkParams probe_speed lift_speed max_distance samples
        sample_retract_dist samples_tolerance samples_retries
        samples_result)))))))).

(** ** Sample statistics *)

Definition mean_of (positions : list Position) (count : Q) : Position :=
  mkPos (py_sum (map pos_x positions) / count)
        (py_sum (map pos_y positions) / count)
        (py_sum (map pos_z positions) / count).

(** [ProbeSessionHelper._calc_mean]; dividing by [float(0)] raises. *)
Definition _calc_mean (positions : list Position) : Result Position :=
  let count := inject_Z (Z.of_nat (length positions)) in
  if Qeq_bool count 0 then Raise ZeroDivisionError
  else Ok (mean_of positions count).

(** [ProbeSessionHelper._calc_median] *)
Definition _calc_median (positions : list Position) (axis : Axis)
    : Result Position :=
  let axis_sorted := sorted (fun p => get_axis p axis) positions in
  let middle := (Z.of_nat (length positions) / 2)%Z in
  if (Z.land (Z.of_nat (length positions)) 1 =? 1)%Z then
    match axis_sorted !! Z.to_nat middle with
    | Some p => Ok p
    | None => Raise IndexError
    end
  else _calc_mean (py_slice axis_sorted (middle - 1) (middle + 1)).

(** [ProbeSessionHelper._calculate_results] *)
Definition _calculate_results (positions : list Position)
    (samples_result : string) (axis : Axis) : Result Position :=
  if String.eqb samples_result "median" then _calc_median positions axis
  else _calc_mean positions.

(** The module-level [calc_probe_average]: its median sorts on [p[2]].
    The recursive call passes ['average'] and so takes the first branch,
    [calc_probe_average_mean]. *)
Definition calc_probe_average_mean (positions : list Position)
    : Result Position :=
  let count := inject_Z (Z.of_nat (length positions)) in
  if Qeq_bool count 0 then Raise ZeroDivisionError
  else Ok (mean_of positions count).

Definition calc_probe_average (positions : list Position) (method : string)
    : Result Position :=
  if negb (String.eqb method "median") then calc_probe_average_mean positions
  else
    let z_sorted := sorted (fun p => get_axis p Axis2) positions in
    let middle := (Z.of_nat (length positions) / 2)%Z in
    if (Z.land (Z.of_nat (length positions)) 1 =? 1)%Z then
      match z_sorted !! Z.to_nat middle with
      | Some p => Ok p
      | None => Raise IndexError
      end
    else calc_probe_average_mean (py_slice z_sorted (middle - 1) (middle + 1)).

(** [max(l)] and [min(l)] on a list: [ValueError] when it is empty. *)
Definition py_max_list (l : list Q) : Result Q :=
  match l with
  | [] => Raise ValueError
  | x :: l' => Ok (fold_left py_max l' x)
  end.

Definition py_min_list (l : list Q) : Result Q :=
  match l with
  | [] => Raise ValueError
  | x :: l' => Ok (fold_left py_min l' x)
  end.

(** ** The host calls *)

Section Methods.
Variable host : Host.
Variable cfg : Config.

(** [toolhead.get_position()] returns a fresh copy of the position. *)
Definition get_position : M Position :=
  s ← get_state; mret (toolhead_position s).

(** [toolhead.manual_move(coord, speed)] *)
Definition manual_move (coord : Position) (speed : Q) : M unit :=
  modify (emit (ev_manual_move coord speed));;
  match manual_move_error host coord speed with
  | Some msg => raise (command_error msg)
  | None => modify (set_toolhead_position coord)
  end.

(** [printer.send_event(name, pos)] *)
Definition send_event (name : string) (pos : Position) : M unit :=
  modify (emit (ev_send_event name pos)).

(** [self.mcu_probes[axis]] *)
Definition mcu_probe (axis : Axis) : M ProbeEndstopWrapper :=
  s ← get_state;
  match mcu_probes s !! axis_index axis with
  | Some w => mret w
  | None => raise IndexError
  end.

Definition set_multi (axis : Axis) (m : MultiState) : M unit :=
  w ← mcu_probe axis;
  modify (fun s =>
    set_mcu_probes
      (<[axis_index axis := mkWrapper (stow_on_each_sample w) m]>
         (mcu_probes s)) s).

(** ** [ProbeEndstopWrapper] *)

Definition _raise_probe : M unit :=
  start_pos ← get_position;
  modify (emit ev_deactivate_gcode);;
  modify (set_toolhead_position (deactivate_gcode host start_pos));;
  pos ← get_position;
  if negb (Position_eqb pos start_pos) then
    raise (command_error
             "Toolhead moved during probe deactivate_gcode script")
  else mret tt.

Definition multi_probe_begin (axis : Axis) : M unit :=
  w ← mcu_probe axis;
  if stow_on_each_sample w then mret tt
  else set_multi axis FIRST.

Definition multi_probe_end (axis : Axis) : M unit :=
  w ← mcu_probe axis;
  if stow_on_each_sample w then mret tt
  else _raise_probe;; set_multi axis OFF.

(** [ProbeEndstopWrapper.probing_move], through [homing.probing_move]. *)
Definition probing_move (axis : Axis) (pos : Position) (speed : Q)
    : M Position :=
  _ ← mcu_probe axis;
  s ← get_state;
  let outcome :=
    probing_move_outcome host (length (trace s)) axis pos speed in
  modify (emit (ev_probing_move axis pos speed outcome));;
  match outcome with
  | Contact epos => modify (set_toolhead_position epos);; mret epos
  | NoContact reason => raise (command_error reason)
  end.

(** ** [ProbeSessionHelper] *)

Definition _probe_state_error {A} : M A :=
  raise (command_error
           "Internal probe error - start/end probe session mismatch").

Definition start_probe_session (direction : string) : M unit :=
  s ← get_state;
  (if multi_probe_pending s then _probe_state_error else mret tt);;
  '(axis, sense) ← lookup_direction direction;
  multi_probe_begin axis;;
  modify (set_multi_probe_pending true);;
  modify (set_results []).

Definition end_probe_session (direction : string) : M unit :=
  s ← get_state;
  (if negb (multi_probe_pending s) then _probe_state_error else mret tt);;
  '(axis, sense) ← lookup_direction direction;
  modify (set_results []);;
  modify (set_multi_probe_pending false);;
  multi_probe_end axis.

(** The handler of ["gcode:command_error"]: it calls [end_probe_session()]
    with the default direction and swallows whatever that raises. *)
Definition _handle_command_error : M unit :=
  s ← get_state;
  if multi_probe_pending s then
    try_except (end_probe_session "z-") (fun _ => true)
      (fun _ => modify (emit (ev_log_exception "Multi-probe end")))
  else mret tt.

Definition check_homed : M unit :=
  if negb (contains "x" (homed_axes host))
     || negb (contains "y" (homed_axes host))
     || negb (contains "z" (homed_axes host))
  then raise (command_error "Must home before probe")
  else mret tt.

(** [self.gcode] does not exist on the session helper, so the guard
    raises [AttributeError]; it tests ['axis_minimum'] twice. *)
Definition _get_target_position (direction : string) : M Position :=
  '(axis, sense) ← lookup_direction direction;
  pos ← get_position;
  match axis_minimum host with
  | None => raise (AttributeError "gcode")
  | Some amin =>
      if (0 <? sense)%Z then
        match axis_maximum host with
        | None => raise (KeyError "axis_maximum")
        | Some amax =>
            mret (set_axis pos axis
                    (py_min (get_axis pos axis + cfg_max_distance cfg)
                            (get_axis amax axis)))
        end
      else
        mret (set_axis pos axis
                (py_max (get_axis pos axis - cfg_max_distance cfg)
                        (get_axis amin axis)))
  end.

Definition _probe (speed : Q) (direction : string) : M Position :=
  check_homed;;
  '(axis, sense) ← lookup_direction direction;
  pos ← _get_target_position direction;
  try_except (probing_move axis pos speed) is_command_error
    (fun e =>
       match e with
       | command_error reason =>
           if contains "Timeout during endstop homing" reason
           then raise (command_error (reason +:+ HINT_TIMEOUT))
           else raise (command_error reason)
       | _ => raise e
       end).

(** The [while bounces < bounce_count] loop of [_bouncing_probe];
    [todo] is [bounce_count - bounces].  [liftpos] is an alias of
    [probe_start], so the mutated list is carried to the next round. *)
Fixpoint bounce_loop (todo : nat) (direction : string) (axis : Axis)
    (sense : Z) (bouncing_lift_speed : Q) (probe_start : Position)
    (bouncing_speed : Q) (pos : option Position) : M (option Position) :=
  match todo with
  | O => mret pos
  | S todo' =>
      pos ← _probe bouncing_speed direction;
      let bouncing_speed := (bouncing_speed * 0.1)%Q in
      let bouncing_retract_dist := (bouncing_speed * 3.0)%Q in
      let liftpos :=
        set_axis probe_start axis
          (get_axis pos axis - inject_Z sense * bouncing_retract_dist)%Q in
      manual_move liftpos bouncing_lift_speed;;
      bounce_loop todo' direction axis sense bouncing_lift_speed liftpos
        bouncing_speed (Some pos)
  end.

Definition bounce_count : nat := 3.

Definition _bouncing_probe (speed : Q) (direction : string) : M Position :=
  probe_start ← get_position;
  '(axis, sense) ← lookup_direction direction;
  let bouncing_speed := speed in
  let bouncing_lift_speed := (bouncing_speed * 2.0)%Q in
  last ← bounce_loop bounce_count direction axis sense bouncing_lift_speed
           probe_start bouncing_speed None;
  match last with
  | None => raise (UnboundLocalError "pos")
  | Some pos =>
      send_event "probe:update_results" pos;;
      mret pos
  end.

(** [max(axis_positions) - min(axis_positions)] *)
Definition spread (axis : Axis) (positions : list Position) : Result Q :=
  let axis_positions := map (fun p => get_axis p axis) positions in
  result_bind (py_max_list axis_positions) (fun hi =>
  result_bind (py_min_list axis_positions) (fun lo =>
  Ok (hi - lo)%Q)).

(** The local variables that the loop of [run_probe] changes.  [liftpos]
    is an alias of [start_position], whose mutation is carried along. *)
Record LoopVars : Type := mkLoop {
  lv_start_position : Position;
  lv_retries : Z;
  lv_positions : list Position
}.

(** [len(positions) < sample_count] *)
Definition loop_guard (params : Params) (positions : list Position) : bool :=
  (Z.of_nat (length positions) <? samples params)%Z.

(** "# Check samples tolerance": the new values of [retries] and
    [positions], [positions] holding the sample just appended. *)
Definition check_samples_tolerance (params : Params) (axis : Axis)
    (retries : Z) (positions : list Position) : M (Z * list Position) :=
  sp ← lift (spread axis positions);
  if Qltb (samples_tolerance params) sp then
    if (samples_tolerance_retries params <=? retries)%Z then
      raise (command_error "Probe samples exceed samples_tolerance")
    else mret ((retries + 1)%Z, [])
  else mret (retries, positions).

(** "# Retract": the new value of the list behind [start_position]. *)
Definition retract (params : Params) (axis : Axis) (sense : Z)
    (start_position pos : Position) (positions : list Position)
    : M Position :=
  if loop_guard params positions then
    let liftpos :=
      set_axis start_position axis
        (get_axis pos axis - inject_Z sense * sample_retract_dist params)%Q in
    manual_move liftpos (lift_speed params);;
    mret liftpos
  else mret start_position.

(** One round of the [while] loop. *)
Definition run_probe_body (params : Params) (direction : string)
    (axis : Axis) (sense : Z) (v : LoopVars) : M LoopVars :=
  pos ← _bouncing_probe (probe_speed params) direction;
  let positions := lv_positions v ++ [pos] in
  '(retries, positions) ←
    check_samples_tolerance params axis (lv_retries v) positions;
  start_position ←
    retract params axis sense (lv_start_position v) pos positions;
  mret (mkLoop start_position retries positions).

(** The [while len(positions) < sample_count] loop of [run_probe]. *)
Fixpoint run_probe_loop (fuel : nat) (params : Params) (direction : string)
    (axis : Axis) (sense : Z) (v : LoopVars) : M (list Position) :=
  if loop_guard params (lv_positions v) then
    match fuel with
    | O => raise fuel_exhausted
    | S fuel' =>
        v' ← run_probe_body params direction axis sense v;
        run_probe_loop fuel' params direction axis sense v'
    end
  else mret (lv_positions v).

(** Rounds that the loop can still make from [retries] and [len]. *)
Definition loop_budget (params : Params) (retries : Z) (len : nat) : nat :=
  (Z.to_nat (samples_tolerance_retries params - retries)
   * Z.to_nat (samples params)
   + Z.to_nat (samples params - Z.of_nat len))%nat.

Definition run_probe (gcmd : GCodeCommand) (direction : string) : M unit :=
  s ← get_state;
  (if negb (multi_probe_pending s) then _probe_state_error else mret tt);;
  params ← lift (get_probe_params cfg gcmd);
  match direction_types !! direction with
  | None => raise (command_error "Wrong value for DIRECTION.")
  | Some (axis, sense) =>
      start_position ← get_position;
      positions ← run_probe_loop (loop_budget params 0 0) params direction
                    axis sense (mkLoop start_position 0 []);
      result_position ←
        lift (_calculate_results positions (samples_result params) axis);
      modify (fun s => set_results (results s ++ [result_position]) s)
  end.

Definition pull_probed_results : M (list Position) :=
  s ← get_state;
  let res := results s in
  modify (set_results []);;
  mret res.
End Methods.

(** ** [ProbeCommandHelper.cmd_PROBE_ACCURACY] *)

(** The numbers of the final report.  The code prints
    [sigma = (deviation_sum / len(positions)) ** 0.5]; the square root has
    no rational value in general, so the report keeps its square. *)
Record AccuracyReport : Type := mkReport {
  max_value : Q;
  min_value : Q;
  range_value : Q;
  avg_value : Q;
  median : Q;
  sigma_squared : Q
}.

(** The [for i in range(len(positions))] loop: it reads [positions[i][2]]. *)
Definition deviation_sum (positions : list Position) (avg_value : Q) : Q :=
  fold_left
    (fun acc p => (acc + (get_axis p Axis2 - avg_value)
                         * (get_axis p Axis2 - avg_value))%Q)
    positions 0%Q.

(** "Calculate maximum, minimum and average values" and what follows. *)
Definition accuracy_statistics (axis : Axis) (positions : list Position)
    : Result AccuracyReport :=
  result_bind (py_max_list (map (fun p => get_axis p axis) positions))
  (fun max_value =>
  result_bind (py_min_list (map (fun p => get_axis p axis) positions))
  (fun min_value =>
  let range_value := (max_value - min_value)%Q in
  result_bind (calc_probe_average positions "average") (fun avg =>
  let avg_value := get_axis avg axis in
  result_bind (calc_probe_average positions "median") (fun med =>
  let median := get_axis med axis in
  let count := inject_Z (Z.of_nat (length positions)) in
  if Qeq_bool count 0 then Raise ZeroDivisionError
  else Ok (mkReport max_value min_value range_value avg_value median
             (deviation_sum positions avg_value / count)%Q))))).

Section Commands.
Variable host : Host.
Variable cfg : Config.

(** The [while probe_num < sample_count] loop; [todo] is
    [sample_count - probe_num]. *)
Fixpoint accuracy_loop (todo : nat) (params : Params)
    (fo_gcmd : GCodeCommand) (direction : string) (axis : Axis)
    (sense : Z) : M unit :=
  match todo with
  | O => mret tt
  | S todo' =>
      run_probe host cfg fo_gcmd direction;;
      pos ← get_position;
      let liftpos :=
        set_axis pos axis
          (get_axis pos axis
           - inject_Z sense * sample_retract_dist params)%Q in
      manual_move host liftpos (lift_speed params);;
      accuracy_loop todo' params fo_gcmd direction axis sense
  end.

Definition cmd_PROBE_ACCURACY (gcmd : GCodeCommand) : M AccuracyReport :=
  params ← lift (get_probe_params cfg gcmd);
  let direction := default "z-" (DIRECTION gcmd) in
  '(axis, sense) ← lookup_direction direction;
  sample_count ← lift (get_int_minval "SAMPLES" (SAMPLES gcmd) 10 1);
  let fo_gcmd :=
    mkGcmd (PROBE_SPEED gcmd) (MAX_DISTANCE gcmd) (LIFT_SPEED gcmd)
      (Some 1%Z) (SAMPLE_RETRACT_DIST gcmd) (SAMPLES_TOLERANCE gcmd)
      (SAMPLES_TOLERANCE_RETRIES gcmd) (SAMPLES_RESULT gcmd)
      (DIRECTION gcmd) in
  start_probe_session direction;;
  accuracy_loop (Z.to_nat sample_count) params fo_gcmd direction axis sense;;
  positions ← pull_probed_results;
  (* the message formats positions[0], positions[1] and positions[2] *)
  (if (length positions <? 3)%nat then raise IndexError else mret tt);;
  end_probe_session host direction;;
  lift (accuracy_statistics axis positions).
End Commands.

(** ** Notions used to state the properties *)

(** The two errors that the specification names. *)
Definition SessionStateError : Error :=
  command_error "Internal probe error - start/end probe session mismatch".

Definition ToleranceExceeded : Error :=
  command_error "Probe samples exceed samples_tolerance".

(** *** Stable sorting *)

Section StableSort.
Context {A : Type} (key : A -> Q).

Definition key_le (a b : A) : Prop := (key a <= key b)%Q.
Definition has_key (k : Q) (a : A) : bool := Qeq_bool (key a) k.

(** [l'] is [l] sorted by [key], elements of the same key in the order
    they have in [l]. *)
Definition is_stable_sort (l l' : list A) : Prop :=
  Permutation l l'
  /\ StronglySorted key_le l'
  /\ forall k, List.filter (has_key k) l' = List.filter (has_key k) l.
End StableSort.

(** The per-coordinate mean of two positions. *)
Definition midpoint (a b : Position) : Position :=
  mkPos ((pos_x a + pos_x b) / 2) ((pos_y a + pos_y b) / 2)
        ((pos_z a + pos_z b) / 2).

(** *** Frames *)

(** The session flag, the result buffer and the wrappers are as before. *)
Definition frame (s s' : State) : Prop :=
  multi_probe_pending s' = multi_probe_pending s
  /\ results s' = results s
  /\ mcu_probes s' = mcu_probes s.

(** A computation that moves the toolhead and logs, nothing else, and
    raises Python exceptions only. *)
Definition motion_only {A} (m : M A) : Prop :=
  forall s r s', m s = (r, s') -> frame s s' /\ r <> Raise fuel_exhausted.

(** The events that a run added to the trace. *)
Definition new_events (s s' : State) : list Event :=
  drop (length (trace s)) (trace s').

(** *** Bounce cycles *)

(** The state after one round of the bounce loop: a probing move that made
    contact, then the retract. *)
Definition after_bounce (axis : Axis) (target contact liftpos : Position)
    (speed lift : Q) (s : State) : State :=
  set_toolhead_position liftpos
    (emit (ev_manual_move liftpos lift)
       (set_toolhead_position contact
          (emit (ev_probing_move axis target speed (Contact contact)) s))).

(** The cycles of a trace: every probing move with the event after it. *)
Fixpoint cycles_of (tr : list Event) : list (Event * Event) :=
  match tr with
  | [] => []
  | e :: tr' =>
      match e, tr' with
      | ev_probing_move _ _ _ _, r :: _ => (e, r) :: cycles_of tr'
      | _, _ => cycles_of tr'
      end
  end.

(** Following the spec's words (4.3, step 2b): the retract of a cycle
    whose contact-detect move ran at speed [v] goes [v * 3.0] away from the
    contact, at lift speed [v * 2.0]. *)
Definition retract_as_specified (axis : Axis) (sense : Z)
    (cycle : Event * Event) : Prop :=
  match cycle with
  | (ev_probing_move _ _ v (Contact c), ev_manual_move coord lift) =>
      (get_axis coord axis == get_axis c axis - inject_Z sense * (v * 3.0))%Q
      /\ (lift == v * 2.0)%Q
  | _ => False
  end.

(** What the code does: the distance is taken from the speed after its
    decay, the lift speed from the initial speed [v0]. *)
Definition retract_as_coded (axis : Axis) (sense : Z) (v0 : Q)
    (cycle : Event * Event) : Prop :=
  match cycle with
  | (ev_probing_move _ _ v (Contact c), ev_manual_move coord lift) =>
      (get_axis coord axis
       == get_axis c axis - inject_Z sense * (v * 0.1 * 3.0))%Q
      /\ (lift == v0 * 2.0)%Q
  | _ => False
  end.

(** A homed cartesian machine whose probe always finds a contact and whose
    toolhead accepts every move. *)
Definition cooperative (host : Host) : Prop :=
  contains "x" (homed_axes host) = true
  /\ contains "y" (homed_axes host) = true
  /\ contains "z" (homed_axes host) = true
  /\ is_Some (axis_minimum host)
  /\ is_Some (axis_maximum host)
  /\ (forall n axis target speed,
        exists contact,
          probing_move_outcome host n axis target speed = Contact contact)
  /\ (forall coord speed, manual_move_error host coord speed = None).

(** *** The sampling loop *)

Section Loop.
Variable host : Host.
Variable cfg : Config.

Definition vars_budget (params : Params) (v : LoopVars) : nat :=
  loop_budget params (lv_retries v) (length (lv_positions v)).

(** The loop variables and states in which the loop condition of
    [run_probe] is tested, from [v0] and [s0] on. *)
Inductive loop_reaches (params : Params) (d : string) (axis : Axis)
    (sense : Z) (v0 : LoopVars) (s0 : State) : LoopVars -> State -> Prop :=
  | reaches_start : loop_reaches params d axis sense v0 s0 v0 s0
  | reaches_round v s v' s' :
      loop_reaches params d axis sense v0 s0 v s ->
      loop_guard params (lv_positions v) = true ->
      run_probe_body host cfg params d axis sense v s = (Ok v', s') ->
      loop_reaches params d axis sense v0 s0 v' s'.
End Loop.

(** *** The timeout hint *)

(** Following the spec's words (4.3, Failure): an error of [_probe] carries
    the hint only when the probed axis is the vertical one. *)
Definition hint_only_on_vertical (host : Host) (cfg : Config) (speed : Q)
    (direction : string) (s : State) : Prop :=
  forall axis sense msg s',
    direction_types !! direction = Some (axis, sense) ->
    _probe host cfg speed direction s = (Raise (command_error msg), s') ->
    contains HINT_TIMEOUT msg = true ->
    axis = Axis2.

(** *** The accuracy report on the configured axis *)

(** Following the spec's words (4.5): every number of the report is taken
    over the coordinates of the configured axis; the median sorts on that
    axis and the deviations are those of that axis. *)
Definition deviation_sum_on_axis (axis : Axis) (positions : list Position)
    (avg_value : Q) : Q :=
  fold_left
    (fun acc p => (acc + (get_axis p axis - avg_value)
                         * (get_axis p axis - avg_value))%Q)
    positions 0%Q.

Definition accuracy_statistics_on_axis (axis : Axis)
    (positions : list Position) : Result AccuracyReport :=
  result_bind (py_max_list (map (fun p => get_axis p axis) positions))
  (fun max_value =>
  result_bind (py_min_list (map (fun p => get_axis p axis) positions))
  (fun min_value =>
  let range_value := (max_value - min_value)%Q in
  result_bind (_calc_mean positions) (fun avg =>
  let avg_value := get_axis avg axis in
  result_bind (_calc_median positions axis) (fun med =>
  let median := get_axis med axis in
  let count := inject_Z (Z.of_nat (length positions)) in
  if Qeq_bool count 0 then Raise ZeroDivisionError
  else Ok (mkReport max_value min_value range_value avg_value median
             (deviation_sum_on_axis axis positions avg_value / count)%Q))))).

(** The hold of the session on the probe of [axis]: the wrapper is in
    multi-probe mode. *)
Definition holds_probe (s : State) (axis : Axis) : Prop :=
  exists w, mcu_probes s !! axis_index axis = Some w /\ multi w <> OFF.

(** ** Concrete machines for the examples *)

Definition origin : Position := mkPos 10 20 30.

(** A homed cartesian machine whose probe stops a little short of the
    target, by an amount that grows with every call. *)
Definition host0 : Host :=
  mkHost "xyz" (Some (mkPos 0 0 (-5))) (Some (mkPos 200 200 200))
    (fun n axis target speed =>
       Contact (set_axis target axis
                  (get_axis target axis + inject_Z (Z.of_nat n) * 0.01)%Q))
    (fun _ _ => None) (fun p => p).

(** The same machine with a probe that never triggers. *)
Definition host_timeout : Host :=
  mkHost "xyz" (Some (mkPos 0 0 (-5))) (Some (mkPos 200 200 200))
    (fun n axis target speed => NoContact "Timeout during endstop homing")
    (fun _ _ => None) (fun p => p).

Definition cfg0 : Config := mkConfig 5 5 10 3 2 "average" 0.1 0.
Definition cfg2 : Config := mkConfig 5 5 10 2 2 "average" 0.05 0.
Definition cfg1 : Config := mkConfig 5 5 10 1 2 "median" 0.1 0.

Definition wrappers0 : list ProbeEndstopWrapper :=
  [mkWrapper false OFF; mkWrapper false OFF; mkWrapper false OFF].

Definition st0 : State := mkState false [] wrappers0 origin [].
Definition st_active : State := mkState true [] wrappers0 origin [].

(** Four results whose first coordinates are 2.0, 2.1, 1.9 and 2.0. *)
Definition accuracy_sample : list Position :=
  [mkPos 2.0 0 1; mkPos 2.1 0 2; mkPos 1.9 0 4; mkPos 2.0 0 3].

(** The parameters that [get_probe_params] builds from [cfg2] alone, and
    the loop variables with which [run_probe] enters its loop in
    [st_active]. *)
Definition params2 : Params := mkParams 5 5 10 2 2 0.05 0 "average".
Definition loop_start : LoopVars := mkLoop origin 0 [].

(** PROBE_ACCURACY DIRECTION=x- SAMPLES=4, and the four results that this
    command pulls on [host0] from [st0]. *)
Definition accuracy_x : GCodeCommand :=
  mkGcmd None None None (Some 4%Z) None None None None (Some "x-").

Definition probed_along_x : list Position :=
  [mkPos 0.04 20 30; mkPos 0.12 20 30; mkPos 0.20 20 30; mkPos 0.28 20 30].

(** ** Notions for the further properties *)



(** Some axis among x, y and z is missing from [homed_axes]. *)
Definition unhomed (host : Host) : Prop :=
  contains "x" (homed_axes host) = false
  \/ contains "y" (homed_axes host) = false
  \/ contains "z" (homed_axes host) = false.

(** A machine on which only x and y are homed. *)
Definition host_unhomed : Host :=
  mkHost "xy" (Some (mkPos 0 0 (-5))) (Some (mkPos 200 200 200))
    (fun n axis target speed => Contact target)
    (fun _ _ => None) (fun p => p).


Definition is_Some_result {A} (r : Result A) : bool :=
  match r with Ok _ => true | Raise _ => false end.

(** A machine whose deactivate script lifts the toolhead by 1. *)
Definition host_moving : Host :=
  mkHost "xyz" (Some (mkPos 0 0 (-5))) (Some (mkPos 200 200 200))
    (fun n axis target speed => Contact target)
    (fun _ _ => None)
    (fun p => set_axis p Axis2 (get_axis p Axis2 + 1)%Q).

(** *** Counting the events of a trace *)

Definition count_events (f : Event -> bool) (tr : list Event) : nat :=
  length (List.filter f tr).

Definition is_probing_move (e : Event) : bool :=
  match e with ev_probing_move _ _ _ _ => true | _ => false end.

Definition is_update_results (e : Event) : bool :=
  match e with
  | ev_send_event name _ => String.eqb name "probe:update_results"
  | _ => false
  end.

Definition probing_moves (tr : list Event) : nat :=
  count_events is_probing_move tr.

(** A computation that only appends to the trace, and at most [n] events
    of the kind [f]. *)
Definition adds_at_most {A} (f : Event -> bool) (n : nat) (m : M A) : Prop :=
  forall s r s', m s = (r, s') ->
    exists l, trace s' = trace s ++ l /\ (count_events f l <= n)%nat.

(** *** Counting by key *)

(** The number of elements of [l] whose key is at most [v]. *)
Definition count_le {A} (key : A -> Q) (v : Q) (l : list A) : nat :=
  length (List.filter (fun a => Qle_bool (key a) v) l).


(** ** [run_single_probe] *)

(** The module-level helper: it begins and ends the session with the
    default direction and probes in the direction it is given. *)
Definition run_single_probe (host : Host) (cfg : Config)
    (gcmd : GCodeCommand) (direction : string) : M Position :=
  start_probe_session "z-";;
  run_probe host cfg gcmd direction;;
  res ← pull_probed_results;
  pos ← match res with
        | [] => raise IndexError
        | pos :: _ => mret pos
        end;
  end_probe_session host "z-";;
  mret pos.


(** ** [ProbeEndstopWrapper]: lowering the probe around a move *)

Section Wrapper.
Variable host : Host.
(** The toolhead position after the activate script. *)
Variable activate_gcode : Position -> Position.

Definition _lower_probe : M unit :=
  start_pos ← get_position;
  modify (set_toolhead_position (activate_gcode start_pos));;
  pos ← get_position;
  if negb (Position_eqb pos start_pos) then
    raise (command_error
             "Toolhead moved during probe activate_gcode script")
  else mret tt.

Definition probe_prepare (axis : Axis) : M unit :=
  w ← mcu_probe axis;
  match multi w with
  | OFF => _lower_probe
  | FIRST => _lower_probe;; set_multi axis ON
  | ON => mret tt
  end.

Definition probe_finish (axis : Axis) : M unit :=
  w ← mcu_probe axis;
  match multi w with
  | OFF => _raise_probe host
  | _ => mret tt
  end.

(** What the homing code does with the wrapper for [n] probing moves in a
    row: [probe_prepare] before each move and [probe_finish] after it. *)
Fixpoint probe_cycles (n : nat) (axis : Axis) : M unit :=
  match n with
  | O => mret tt
  | S n' => probe_prepare axis;; probe_finish axis;; probe_cycles n' axis
  end.
End Wrapper.

Definition is_deactivate (e : Event) : bool :=
  match e with ev_deactivate_gcode => true | _ => false end.

(** How often the deactivate script ran in a trace. *)
Definition deactivations (tr : list Event) : nat :=
  length (List.filter is_deactivate tr).

(** A script that leaves the toolhead where it was. *)
Definition keeps_toolhead (script : Position -> Position) : Prop :=
  forall p, Position_eqb (script p) p = true.

(** * Properties *)

(** ** Sorting and the median *)

Section StableSortFacts.
Context {A : Type} (key : A -> Q).
Local Abbreviation key_le := (key_le key).
Local Abbreviation has_key := (has_key key).
Local Abbreviation is_stable_sort := (is_stable_sort key).

Lemma Qltb_lt a b : Qltb a b = true <-> (a < b)%Q.
Proof.
  unfold Qltb. rewrite negb_true_iff. split; intros H.
  - apply Qnot_le_lt. intros Hle. apply Qle_bool_iff in Hle. congruence.
  - apply not_true_is_false. intros Hle. apply Qle_bool_iff in Hle.
    now apply Qlt_not_le in H.
Qed.

Lemma Qltb_ge a b : Qltb a b = false <-> (b <= a)%Q.
Proof.
  unfold Qltb. rewrite negb_false_iff. apply Qle_bool_iff.
Qed.

Lemma insert_sorted_perm x l : Permutation (x :: l) (insert_sorted key x l).
Proof.
  induction l as [|y l IH]; simpl; [reflexivity|].
  destruct (Qltb (key y) (key x)); [|reflexivity].
  rewrite perm_swap. now constructor.
Qed.

Lemma sorted_perm l : Permutation l (sorted key l).
Proof.
  induction l as [|x l IH]; simpl; [constructor|].
  rewrite <- insert_sorted_perm. now constructor.
Qed.

Lemma insert_sorted_sorted x l :
  StronglySorted key_le l -> StronglySorted key_le (insert_sorted key x l).
Proof.
  induction 1 as [|y l Hs IH Hall]; simpl.
  - repeat constructor.
  - destruct (Qltb (key y) (key x)) eqn:E.
    + constructor; [exact IH|].
      apply (Permutation_Forall (insert_sorted_perm x l)).
      constructor; [|exact Hall].
      apply Qltb_lt in E. unfold key_le. now apply Qlt_le_weak.
    + apply Qltb_ge in E.
      constructor; [now constructor|].
      constructor; [exact E|].
      eapply Forall_impl; [exact Hall|].
      intros z Hz. unfold key_le in *. now apply Qle_trans with (key y).
Qed.

Lemma sorted_sorted l : StronglySorted key_le (sorted key l).
Proof.
  induction l as [|x l IH]; simpl; [constructor|].
  now apply insert_sorted_sorted.
Qed.

Lemma insert_sorted_filter k x l :
  List.filter (has_key k) (insert_sorted key x l)
  = List.filter (has_key k) (x :: l).
Proof.
  induction l as [|y l IH]; [reflexivity|].
  cbn [insert_sorted].
  destruct (Qltb (key y) (key x)) eqn:E; [|reflexivity].
  cbn [List.filter] in *. rewrite IH.
  destruct (has_key k x) eqn:Ex, (has_key k y) eqn:Ey; try reflexivity.
  exfalso. unfold has_key in *.
  apply Qeq_bool_iff in Ex, Ey. apply Qltb_lt in E.
  rewrite Ex, Ey in E. now apply Qlt_irrefl in E.
Qed.

Lemma sorted_filter k l :
  List.filter (has_key k) (sorted key l) = List.filter (has_key k) l.
Proof.
  induction l as [|x l IH]; [reflexivity|].
  cbn [sorted]. rewrite insert_sorted_filter. cbn [List.filter].
  now rewrite IH.
Qed.

Lemma sorted_is_stable_sort l : is_stable_sort l (sorted key l).
Proof.
  split; [apply sorted_perm|]. split; [apply sorted_sorted|].
  intros k. apply sorted_filter.
Qed.

Lemma sorted_length l : length (sorted key l) = length l.
Proof. symmetry. apply Permutation_length, sorted_perm. Qed.

Lemma has_key_refl x : has_key (key x) x = true.
Proof. unfold has_key. apply Qeq_bool_refl. Qed.

Lemma has_key_head_in k x l l' :
  has_key k x = true ->
  List.filter (has_key k) (x :: l) = List.filter (has_key k) l' -> In x l'.
Proof.
  intros Hx Hf. cbn [List.filter] in Hf. rewrite Hx in Hf.
  assert (Hi : In x (List.filter (has_key k) l')) by (rewrite <- Hf; now left).
  now apply filter_In in Hi.
Qed.

(** Two lists sorted by key that keep the order of the elements of every
    key are the same list. *)
Lemma stable_sorted_unique l1 : forall l2,
  StronglySorted key_le l1 -> StronglySorted key_le l2 ->
  (forall k, List.filter (has_key k) l1 = List.filter (has_key k) l2) ->
  l1 = l2.
Proof.
  induction l1 as [|x l1 IH]; intros l2 H1 H2 Hf.
  - destruct l2 as [|y l2]; [reflexivity|].
    pose proof (has_key_head_in _ _ _ _ (has_key_refl y) (eq_sym (Hf (key y)))) as [].
  - destruct l2 as [|y l2].
    + pose proof (has_key_head_in _ _ _ _ (has_key_refl x) (Hf (key x))) as [].
    + inversion H1 as [|? ? H1' Hx]; inversion H2 as [|? ? H2' Hy]; subst.
      assert (Hxy : x = y).
      { destruct (has_key (key x) y) eqn:Eyx.
        - pose proof (Hf (key x)) as Hk. cbn [List.filter] in Hk.
          rewrite Eyx, has_key_refl in Hk. congruence.
        - exfalso.
          pose proof (has_key_head_in _ _ _ _ (has_key_refl x) (Hf (key x)))
            as Hin.
          pose proof (has_key_head_in _ _ _ _ (has_key_refl y)
                        (eq_sym (Hf (key y)))) as Hin'.
          destruct Hin as [->|Hin]; [now rewrite has_key_refl in Eyx|].
          destruct Hin' as [->|Hin']; [now rewrite has_key_refl in Eyx|].
          rewrite List.Forall_forall in Hx, Hy.
          apply Hx in Hin'. apply Hy in Hin. unfold key_le in *.
          unfold has_key in Eyx. apply Qeq_bool_neq in Eyx.
          apply Eyx. now apply Qle_antisym. }
      subst y. f_equal. apply IH; auto.
      intros k. specialize (Hf k). cbn [List.filter] in Hf.
      destruct (has_key k x); congruence.
Qed.

Lemma stable_sort_unique l l' :
  is_stable_sort l l' -> l' = sorted key l.
Proof.
  intros (_ & Hs & Hf). apply stable_sorted_unique; auto using sorted_sorted.
  intros k. now rewrite Hf, sorted_filter.
Qed.
End StableSortFacts.

Lemma land_one_odd n :
  (Z.land (Z.of_nat n) 1 =? 1)%Z = Nat.odd n.
Proof.
  change 1%Z with (Z.ones 1) at 1. rewrite Z.land_ones by lia.
  change (2 ^ 1)%Z with 2%Z.
  destruct (Nat.odd n) eqn:E.
  - apply Nat.odd_spec in E as [m ->]. apply Z.eqb_eq.
    Z.div_mod_to_equations. lia.
  - rewrite <- Nat.negb_even in E. apply negb_false_iff in E.
    apply Nat.even_spec in E as [m ->]. apply Z.eqb_neq.
    Z.div_mod_to_equations. lia.
Qed.

Lemma py_slice_two {A} (l : list A) (m : nat) a b :
  l !! m = Some a -> l !! S m = Some b ->
  py_slice l (Z.of_nat (S m) - 1) (Z.of_nat (S m) + 1) = [a; b].
Proof.
  intros Ha Hb. unfold py_slice, slice_bound.
  pose proof (lookup_lt_Some _ _ _ Hb) as Hlt.
  destruct (Z.ltb_spec (Z.of_nat (S m) - 1) 0); [lia|].
  destruct (Z.ltb_spec (Z.of_nat (S m) + 1) 0); [lia|].
  rewrite !Z.min_l by lia.
  replace (Z.to_nat (Z.of_nat (S m) + 1 - (Z.of_nat (S m) - 1))) with 2%nat by lia.
  replace (Z.to_nat (Z.of_nat (S m) - 1)) with m by lia.
  rewrite (drop_S _ _ _ Ha). cbn [take]. f_equal.
  rewrite (drop_S _ _ _ Hb). reflexivity.
Qed.

Lemma calc_mean_two a b :
  exists m, _calc_mean [a; b] = Ok m /\ Position_eq m (midpoint a b).
Proof.
  eexists. split; [reflexivity|].
  unfold Position_eq, mean_of, midpoint, py_sum; cbn.
  repeat split; field.
Qed.

(** C6.  For a non-empty list of positions, [_calc_median] works on the
    list sorted by the axis coordinate with a stable sort; for an odd count
    it returns the middle element itself, for an even count the
    per-coordinate mean of the two middle elements. *)
Theorem median_spec (positions : list Position) (axis : Axis) :
  positions <> [] ->
  let key := fun p => get_axis p axis in
  let axis_sorted := sorted key positions in
  let middle := (length positions / 2)%nat in
  is_stable_sort key positions axis_sorted
  /\ if Nat.odd (length positions)
     then exists p,
            axis_sorted !! middle = Some p
            /\ _calc_median positions axis = Ok p
     else exists a b m,
            axis_sorted !! (middle - 1)%nat = Some a
            /\ axis_sorted !! middle = Some b
            /\ _calc_median positions axis = Ok m
            /\ Position_eq m (midpoint a b).
Proof.
  intros Hne key axis_sorted middle.
  split; [apply sorted_is_stable_sort|].
  assert (Hlen : length axis_sorted = length positions) by apply sorted_length.
  assert (Hpos : (0 < length positions)%nat)
    by (destruct positions; [congruence | simpl; lia]).
  assert (Hmid : Z.to_nat (Z.of_nat (length positions) / 2) = middle).
  { unfold middle. rewrite <- (Nat2Z.id (length positions / 2)).
    f_equal. now rewrite Nat2Z.inj_div. }
  unfold _calc_median. rewrite land_one_odd.
  fold key. fold axis_sorted. rewrite Hmid.
  destruct (Nat.odd (length positions)) eqn:Hodd.
  - destruct (lookup_lt_is_Some_2 axis_sorted middle) as [p Hp].
    { rewrite Hlen. unfold middle. apply Nat.div_lt; lia. }
    exists p. now rewrite Hp.
  - assert (Heven : Nat.even (length positions) = true)
      by (rewrite <- Nat.negb_odd, Hodd; reflexivity).
    apply Nat.even_spec in Heven as [h Hh].
    assert (Hm : middle = h)
      by (unfold middle; rewrite Hh, Nat.mul_comm; apply Nat.div_mul; lia).
    destruct h as [|h]; [lia|].
    destruct (lookup_lt_is_Some_2 axis_sorted h) as [a Ha]; [lia|].
    destruct (lookup_lt_is_Some_2 axis_sorted (S h)) as [b Hb]; [lia|].
    destruct (calc_mean_two a b) as (m & Hmean & Heq).
    exists a, b, m. rewrite Hm.
    replace (S h - 1)%nat with h by lia.
    repeat split; try assumption; try apply Heq.
    replace (Z.of_nat (length positions) / 2)%Z with (Z.of_nat (S h)).
    + now rewrite (py_slice_two _ _ _ _ Ha Hb).
    + rewrite Hh. rewrite Nat2Z.inj_mul. change (Z.of_nat 2) with 2%Z.
      rewrite Z.mul_comm, Z.div_mul; lia.
Qed.

Lemma median_spec_witness :
  [mkPos 1 0 1; mkPos 2 0 3; mkPos 3 0 2] <> []
  /\ exists p,
       sorted (fun p => get_axis p Axis2)
         [mkPos 1 0 1; mkPos 2 0 3; mkPos 3 0 2] !! 1%nat = Some p
       /\ _calc_median [mkPos 1 0 1; mkPos 2 0 3; mkPos 3 0 2] Axis2 = Ok p.
Proof.
  split; [discriminate|].
  exact (proj2 (median_spec [mkPos 1 0 1; mkPos 2 0 3; mkPos 3 0 2] Axis2
                  ltac:(discriminate))).
Defined.

(** ** Running the monad *)

Lemma bind_run {A B} (m : M A) (k : A -> M B) s :
  (m ≫= k) s = match m s with
               | (Ok a, s') => k a s'
               | (Raise e, s') => (Raise e, s')
               end.
Proof. reflexivity. Qed.

Lemma bind_ok {A B} (m : M A) (k : A -> M B) s b s' :
  (m ≫= k) s = (Ok b, s') ->
  exists a s1, m s = (Ok a, s1) /\ k a s1 = (Ok b, s').
Proof.
  rewrite bind_run. destruct (m s) as [[a|e] s1]; [eauto | discriminate].
Qed.

Ltac run_monad :=
  unfold mbind, mret, M_bind, M_ret, raise, get_state, modify, lift,
    try_except in *; simpl in *.

Ltac inv_bind H :=
  let a := fresh "a" in let s1 := fresh "s" in let H1 := fresh "Hm" in
  apply bind_ok in H as (a & s1 & H1 & H).

Section Runs.
Variable host : Host.
Variable cfg : Config.

Lemma lookup_direction_ok d r s s' :
  lookup_direction d s = (Ok r, s') -> direction_types !! d = Some r /\ s' = s.
Proof.
  unfold lookup_direction. destruct (direction_types !! d); run_monad; intros; simplify_eq; auto.
Qed.

Lemma get_target_position_state d r s s' :
  _get_target_position host cfg d s = (r, s') -> s' = s.
Proof.
  unfold _get_target_position, lookup_direction, get_position. run_monad.
  intros H. repeat case_match; simplify_eq; auto.
Qed.

Lemma check_homed_ok u s s' : check_homed host s = (Ok u, s') -> s' = s.
Proof.
  unfold check_homed. intros H. case_match; run_monad; simplify_eq; auto.
Qed.

Lemma probing_move_ok axis target v p s s' :
  probing_move host axis target v s = (Ok p, s') ->
  s' = set_toolhead_position p
         (emit (ev_probing_move axis target v (Contact p)) s).
Proof.
  unfold probing_move, mcu_probe. run_monad.
  intros H. repeat case_match; simplify_eq; congruence.
Qed.

Lemma probe_ok v d p s s' :
  _probe host cfg v d s = (Ok p, s') ->
  exists axis sense target,
    direction_types !! d = Some (axis, sense)
    /\ _get_target_position host cfg d s = (Ok target, s)
    /\ s' = set_toolhead_position p
              (emit (ev_probing_move axis target v (Contact p)) s).
Proof.
  unfold _probe. intros H.
  inv_bind H. apply check_homed_ok in Hm as ->.
  inv_bind H. destruct a0 as [axis sense].
  apply lookup_direction_ok in Hm as [Hd ->].
  inv_bind H. pose proof (get_target_position_state _ _ _ _ Hm) as ->.
  unfold try_except in H.
  destruct (probing_move host axis a0 v s) as [[epos|e] s2] eqn:Hp.
  - simplify_eq. apply probing_move_ok in Hp as ->. eauto 10.
  - destruct e; simpl in H; try discriminate.
    case_match; discriminate.
Qed.

Lemma get_position_ok p s s' :
  get_position s = (Ok p, s') -> p = toolhead_position s /\ s' = s.
Proof. intros H. injection H as <- <-. auto. Qed.

Lemma manual_move_ok coord speed u s s' :
  manual_move host coord speed s = (Ok u, s') ->
  s' = set_toolhead_position coord (emit (ev_manual_move coord speed) s).
Proof.
  unfold manual_move. run_monad. intros H. case_match; simplify_eq; auto.
Qed.

Lemma bounce_loop_step todo d axis sense lift start v last r s s' :
  direction_types !! d = Some (axis, sense) ->
  bounce_loop host cfg (S todo) d axis sense lift start v last s = (Ok r, s') ->
  exists target contact,
    let liftpos :=
      set_axis start axis
        (get_axis contact axis - inject_Z sense * (v * 0.1 * 3.0))%Q in
    bounce_loop host cfg todo d axis sense lift liftpos (v * 0.1)%Q
      (Some contact) (after_bounce axis target contact liftpos v lift s)
    = (Ok r, s').
Proof.
  intros Hd H. cbn [bounce_loop] in H.
  inv_bind H. apply probe_ok in Hm as (ax & se & target & Hd' & _ & ->).
  assert (ax = axis) as -> by congruence.
  inv_bind H. apply manual_move_ok in Hm as ->.
  exists target, a. exact H.
Qed.

Lemma bouncing_probe_ok v d pos s s' :
  _bouncing_probe host cfg v d s = (Ok pos, s') ->
  exists axis sense t1 t2 t3 c1 c2,
    let lift := (v * 2.0)%Q in
    let v2 := (v * 0.1)%Q in
    let v3 := (v * 0.1 * 0.1)%Q in
    let l1 := set_axis (toolhead_position s) axis
                (get_axis c1 axis - inject_Z sense * (v * 0.1 * 3.0))%Q in
    let l2 := set_axis l1 axis
                (get_axis c2 axis - inject_Z sense * (v2 * 0.1 * 3.0))%Q in
    let l3 := set_axis l2 axis
                (get_axis pos axis - inject_Z sense * (v3 * 0.1 * 3.0))%Q in
    direction_types !! d = Some (axis, sense)
    /\ s' = emit (ev_send_event "probe:update_results" pos)
              (after_bounce axis t3 pos l3 v3 lift
                 (after_bounce axis t2 c2 l2 v2 lift
                    (after_bounce axis t1 c1 l1 v lift s))).
Proof.
  unfold _bouncing_probe. intros H.
  inv_bind H. apply get_position_ok in Hm as [-> ->].
  inv_bind H. destruct a as [axis sense].
  apply lookup_direction_ok in Hm as [Hd ->].
  inv_bind H. unfold bounce_count in Hm.
  apply (bounce_loop_step _ _ _ _ _ _ _ _ _ _ _ Hd) in Hm as (t1 & c1 & Hm).
  apply (bounce_loop_step _ _ _ _ _ _ _ _ _ _ _ Hd) in Hm as (t2 & c2 & Hm).
  apply (bounce_loop_step _ _ _ _ _ _ _ _ _ _ _ Hd) in Hm as (t3 & c3 & Hm).
  cbn [bounce_loop] in Hm. injection Hm as <- <-.
  inv_bind H. unfold send_event, modify in Hm.
  unfold mret, M_ret in H. simplify_eq.
  exists axis, sense, t1, t2, t3, c1, c2. split; [assumption|reflexivity].
Qed.

Lemma after_bounce_trace axis target contact liftpos speed lift s :
  trace (after_bounce axis target contact liftpos speed lift s)
  = trace s ++ [ev_probing_move axis target speed (Contact contact);
                ev_manual_move liftpos lift].
Proof. unfold after_bounce. simpl. now rewrite <- app_assoc. Qed.

Lemma new_events_app s s' l : trace s' = trace s ++ l -> new_events s s' = l.
Proof. unfold new_events. intros ->. now rewrite drop_app_length. Qed.

(** The events of a successful bounce refinement. *)
Lemma bouncing_probe_events v d pos s s' :
  _bouncing_probe host cfg v d s = (Ok pos, s') ->
  exists axis sense t1 t2 t3 c1 c2 l1 l2 l3,
    direction_types !! d = Some (axis, sense)
    /\ new_events s s'
       = [ev_probing_move axis t1 v (Contact c1);
          ev_manual_move l1 (v * 2.0)%Q;
          ev_probing_move axis t2 (v * 0.1)%Q (Contact c2);
          ev_manual_move l2 (v * 2.0)%Q;
          ev_probing_move axis t3 (v * 0.1 * 0.1)%Q (Contact pos);
          ev_manual_move l3 (v * 2.0)%Q;
          ev_send_event "probe:update_results" pos]
    /\ get_axis l1 axis
       = (get_axis c1 axis - inject_Z sense * (v * 0.1 * 3.0))%Q
    /\ get_axis l2 axis
       = (get_axis c2 axis - inject_Z sense * (v * 0.1 * 0.1 * 3.0))%Q
    /\ get_axis l3 axis
       = (get_axis pos axis
          - inject_Z sense * (v * 0.1 * 0.1 * 0.1 * 3.0))%Q.
Proof.
  intros H.
  apply bouncing_probe_ok in H
    as (axis & sense & t1 & t2 & t3 & c1 & c2 & Hd & ->).
  eexists axis, sense, t1, t2, t3, c1, c2, _, _, _.
  split; [exact Hd|]. split.
  - apply new_events_app. cbn [trace emit].
    rewrite !after_bounce_trace, <- !app_assoc. reflexivity.
  - repeat split; destruct axis; reflexivity.
Qed.

(** C1.  Whatever the session went through before: if it is active,
    [start_probe_session] raises the session state error, and if it is
    not, [run_probe] and [end_probe_session] raise it; the session (flag,
    result buffer and everything else) is left as it was. *)
Theorem session_state_errors (gcmd : GCodeCommand) (direction : string)
    (s : State) :
  if multi_probe_pending s
  then start_probe_session direction s = (Raise SessionStateError, s)
  else run_probe host cfg gcmd direction s = (Raise SessionStateError, s)
       /\ end_probe_session host direction s = (Raise SessionStateError, s).
Proof.
  destruct (multi_probe_pending s) eqn:Hp.
  - unfold start_probe_session. rewrite bind_run. cbn [get_state].
    rewrite bind_run, Hp. reflexivity.
  - split.
    + unfold run_probe. rewrite bind_run. cbn [get_state].
      rewrite bind_run, Hp. reflexivity.
    + unfold end_probe_session. rewrite bind_run. cbn [get_state].
      rewrite bind_run, Hp. reflexivity.
Qed.

(** C2.  A bounce refinement that returns has made exactly three cycles
    of a probing move and a retract, whatever the configuration says
    about samples; the probing move of cycle k ran at the initial speed
    times 0.1^(k-1); the position returned is the contact of the third
    probing move and the one sent with [probe:update_results]. *)
Theorem bouncing_probe_three_cycles (v : Q) (d : string) (pos : Position)
    (s s' : State) :
  _bouncing_probe host cfg v d s = (Ok pos, s') ->
  exists axis t1 t2 t3 c1 c2 l1 l2 l3 ls1 ls2 ls3 v1 v2 v3,
    new_events s s'
    = [ev_probing_move axis t1 v1 (Contact c1); ev_manual_move l1 ls1;
       ev_probing_move axis t2 v2 (Contact c2); ev_manual_move l2 ls2;
       ev_probing_move axis t3 v3 (Contact pos); ev_manual_move l3 ls3;
       ev_send_event "probe:update_results" pos]
    /\ (v1 == v * 0.1 ^ 0)%Q
    /\ (v2 == v * 0.1 ^ 1)%Q
    /\ (v3 == v * 0.1 ^ 2)%Q.
Proof.
  intros H.
  apply bouncing_probe_events in H
    as (axis & sense & t1 & t2 & t3 & c1 & c2 & l1 & l2 & l3 & _ & -> & _).
  eexists axis, t1, t2, t3, c1, c2, l1, l2, l3, _, _, _, _, _, _.
  split; [reflexivity|].
  repeat split; simpl; field.
Qed.

(** C3, as the code has it.  In each of the three cycles, where v is the
    speed of the cycle's probing move, the retract goes to the contact
    coordinate minus sense * ((v * 0.1) * 3.0), the speed being decayed
    before the distance is computed, and runs at the initial speed times
    2.0, fixed before the first cycle. *)
Theorem bouncing_probe_retracts (v : Q) (d : string) (pos : Position)
    (s s' : State) :
  _bouncing_probe host cfg v d s = (Ok pos, s') ->
  exists axis sense,
    direction_types !! d = Some (axis, sense)
    /\ length (cycles_of (new_events s s')) = 3%nat
    /\ Forall (retract_as_coded axis sense v) (cycles_of (new_events s s')).
Proof.
  intros H.
  apply bouncing_probe_events in H
    as (axis & sense & t1 & t2 & t3 & c1 & c2 & l1 & l2 & l3
        & Hd & -> & H1 & H2 & H3).
  exists axis, sense. split; [exact Hd|]. split; [reflexivity|].
  cbn [cycles_of]. repeat constructor; cbn [retract_as_coded];
    rewrite ?H1, ?H2, ?H3; reflexivity.
Qed.

(** C9, as the code has it.  When the probing move fails, [_probe] raises
    a command error whose text is the reason of the failure, with the
    hint appended exactly when the reason contains "Timeout during
    endstop homing"; the axis plays no part. *)
Theorem probe_timeout_hint (v : Q) (d : string) (s : State) (axis : Axis)
    (sense : Z) (target : Position) (w : ProbeEndstopWrapper)
    (reason : string) :
  check_homed host s = (Ok tt, s) ->
  direction_types !! d = Some (axis, sense) ->
  _get_target_position host cfg d s = (Ok target, s) ->
  mcu_probes s !! axis_index axis = Some w ->
  probing_move_outcome host (length (trace s)) axis target v
  = NoContact reason ->
  _probe host cfg v d s
  = (Raise (command_error
              (if contains "Timeout during endstop homing" reason
               then reason +:+ HINT_TIMEOUT else reason)),
     emit (ev_probing_move axis target v (NoContact reason)) s).
Proof.
  intros Hh Hd Ht Hw Ho. unfold _probe.
  rewrite bind_run, Hh, bind_run.
  unfold lookup_direction at 1. rewrite Hd. cbn [mret M_ret].
  rewrite bind_run, Ht. unfold try_except, probing_move.
  rewrite bind_run. unfold mcu_probe at 1. rewrite bind_run.
  cbn [get_state]. rewrite Hw. cbn [mret M_ret].
  rewrite bind_run. cbn [get_state]. rewrite bind_run. cbn [modify].
  rewrite Ho. cbn [raise is_command_error].
  destruct (contains _ reason); reflexivity.
Qed.
End Runs.

Lemma bouncing_probe_three_cycles_witness :
  exists pos s',
    _bouncing_probe host0 cfg0 5 "z-" st0 = (Ok pos, s')
    /\ exists axis t1 t2 t3 c1 c2 l1 l2 l3 ls1 ls2 ls3 v1 v2 v3,
         new_events st0 s'
         = [ev_probing_move axis t1 v1 (Contact c1); ev_manual_move l1 ls1;
            ev_probing_move axis t2 v2 (Contact c2); ev_manual_move l2 ls2;
            ev_probing_move axis t3 v3 (Contact pos); ev_manual_move l3 ls3;
            ev_send_event "probe:update_results" pos]
         /\ (v1 == 5 * 0.1 ^ 0)%Q /\ (v2 == 5 * 0.1 ^ 1)%Q
         /\ (v3 == 5 * 0.1 ^ 2)%Q.
Proof.
  eexists _, _. split.
  - vm_compute. reflexivity.
  - eapply (bouncing_probe_three_cycles host0 cfg0 5 "z-").
    vm_compute. reflexivity.
Defined.

Lemma bouncing_probe_retracts_witness :
  exists pos s',
    _bouncing_probe host0 cfg0 5 "x+" st0 = (Ok pos, s')
    /\ exists axis sense,
         direction_types !! "x+" = Some (axis, sense)
         /\ length (cycles_of (new_events st0 s')) = 3%nat
         /\ Forall (retract_as_coded axis sense 5)
                    (cycles_of (new_events st0 s')).
Proof.
  eexists _, _. split.
  - vm_compute. reflexivity.
  - eapply (bouncing_probe_retracts host0 cfg0 5 "x+").
    vm_compute. reflexivity.
Defined.

(** C3, as the spec states it, fails on the first cycle of a refinement
    at speed 5 towards z-: the contact is at z = 20 and the retract goes
    to z = 21.5, which is 0.3 * 5 away and not 3.0 * 5. *)
Lemma retract_not_as_specified :
  ~ Forall (retract_as_specified Axis2 (-1))
      (cycles_of
         (new_events st0 (_bouncing_probe host0 cfg0 5 "z-" st0).2)).
Proof.
  intros H. apply Forall_inv in H. vm_compute in H.
  destruct H as [H _]. discriminate H.
Qed.

Lemma probe_timeout_hint_witness :
  _probe host_timeout cfg0 5 "x-" st0
  = (Raise (command_error
              ("Timeout during endstop homing" +:+ HINT_TIMEOUT)),
     emit (ev_probing_move Axis0 (mkPos 0 20 30) 5
             (NoContact "Timeout during endstop homing")) st0).
Proof.
  apply (probe_timeout_hint host_timeout cfg0 5 "x-" st0 Axis0 (-1)
           (mkPos 0 20 30) (mkWrapper false OFF)
           "Timeout during endstop homing");
    vm_compute; reflexivity.
Defined.

(** C9, as the spec states it, fails for a timeout while probing towards
    x-: the error carries the hint although the axis is horizontal. *)
Lemma hint_on_horizontal_axis :
  ~ hint_only_on_vertical host_timeout cfg0 5 "x-" st0.
Proof.
  intros H.
  specialize (H Axis0 (-1)%Z
                ("Timeout during endstop homing" +:+ HINT_TIMEOUT)
                (emit (ev_probing_move Axis0 (mkPos 0 20 30) 5
                         (NoContact "Timeout during endstop homing")) st0)).
  assert (Hax : Axis0 = Axis2)
    by (apply H; vm_compute; reflexivity).
  discriminate Hax.
Qed.

(** ** Frames: what the motion code leaves alone *)

Lemma frame_refl s : frame s s.
Proof. repeat split. Qed.

Lemma frame_trans s1 s2 s3 : frame s1 s2 -> frame s2 s3 -> frame s1 s3.
Proof. unfold frame. intuition congruence. Qed.

Lemma motion_only_bind {A B} (m : M A) (k : A -> M B) :
  motion_only m -> (forall a, motion_only (k a)) -> motion_only (m ≫= k).
Proof.
  intros Hm Hk s r s'. rewrite bind_run.
  destruct (m s) as [[a|e] s1] eqn:E; intros H.
  - destruct (Hm _ _ _ E) as [F1 _]. destruct (Hk a _ _ _ H) as [F2 Hr].
    split; [eapply frame_trans; eassumption | exact Hr].
  - simplify_eq. destruct (Hm _ _ _ E) as [F1 Hr]. split; [exact F1|].
    intros Heq. apply Hr. congruence.
Qed.

Lemma motion_only_ret {A} (a : A) : motion_only (mret a).
Proof. intros s r s' H. injection H as <- <-. split; [apply frame_refl | discriminate]. Qed.

Lemma motion_only_raise {A} e : e <> fuel_exhausted -> motion_only (@raise A e).
Proof.
  intros He s r s' H. injection H as <- <-. split; [apply frame_refl | congruence].
Qed.

Lemma motion_only_modify f :
  (forall s, frame s (f s)) -> motion_only (modify f).
Proof. intros Hf s r s' H. injection H as <- <-. split; [apply Hf | discriminate]. Qed.

Lemma motion_only_get : motion_only get_state.
Proof. intros s r s' H. injection H as <- <-. split; [apply frame_refl | discriminate]. Qed.

Lemma motion_only_lift {A} (r : Result A) :
  r <> Raise fuel_exhausted -> motion_only (lift r).
Proof. intros Hr s r' s' H. injection H as <- <-. split; [apply frame_refl | exact Hr]. Qed.

Lemma motion_only_try {A} (m : M A) catches h :
  motion_only m -> (forall e, catches e = true -> motion_only (h e)) ->
  motion_only (try_except m catches h).
Proof.
  intros Hm Hh s r s'. unfold try_except.
  destruct (m s) as [[a|e] s1] eqn:E; intros H.
  - simplify_eq. destruct (Hm _ _ _ E) as [F Hr]. split; [exact F | discriminate].
  - destruct (Hm _ _ _ E) as [F Hr]. destruct (catches e) eqn:Ec.
    + destruct (Hh e Ec _ _ _ H) as [F2 Hr2]. split; [eapply frame_trans; eassumption | exact Hr2].
    + simplify_eq. split; [exact F|]. intros Heq. apply Hr. congruence.
Qed.


Ltac motion :=
  repeat first
    [ apply motion_only_bind; [|intros ?]
    | apply motion_only_try; [|intros ? ?]
    | discriminate
    | apply motion_only_ret
    | apply motion_only_get
    | apply motion_only_raise; discriminate
    | apply motion_only_modify; intros ?; repeat split
    | progress case_match ].

Section Frame.
Variable host : Host.
Variable cfg : Config.
Local Abbreviation loop_reaches := (loop_reaches host cfg).

Lemma get_position_run s : get_position s = (Ok (toolhead_position s), s).
Proof. reflexivity. Qed.

Lemma motion_only_get_position : motion_only get_position.
Proof. unfold get_position. motion. Qed.

Lemma motion_only_manual_move coord speed :
  motion_only (manual_move host coord speed).
Proof. unfold manual_move. motion. Qed.

Lemma motion_only_lookup_direction d : motion_only (lookup_direction d).
Proof. unfold lookup_direction. motion. Qed.

Lemma motion_only_probe v d : motion_only (_probe host cfg v d).
Proof.
  unfold _probe, check_homed, _get_target_position, probing_move, mcu_probe,
    lookup_direction, get_position.
  motion.
Qed.

Lemma motion_only_bounce_loop todo d axis sense lift :
  forall start v last,
    motion_only (bounce_loop host cfg todo d axis sense lift start v last).
Proof.
  induction todo as [|todo IH]; intros start v last; cbn [bounce_loop].
  - apply motion_only_ret.
  - apply motion_only_bind; [apply motion_only_probe | intros pos].
    apply motion_only_bind; [apply motion_only_manual_move | intros _].
    apply IH.
Qed.

Lemma motion_only_bouncing_probe v d : motion_only (_bouncing_probe host cfg v d).
Proof.
  unfold _bouncing_probe.
  apply motion_only_bind; [apply motion_only_get_position | intros start].
  apply motion_only_bind; [apply motion_only_lookup_direction | intros [axis sense]].
  apply motion_only_bind; [apply motion_only_bounce_loop | intros last].
  unfold send_event. motion.
Qed.

Lemma spread_python axis positions :
  spread axis positions <> Raise fuel_exhausted.
Proof.
  unfold spread, py_max_list, py_min_list.
  destruct (map _ positions); simpl; discriminate.
Qed.

Lemma motion_only_check params axis retries positions :
  motion_only (check_samples_tolerance params axis retries positions).
Proof.
  unfold check_samples_tolerance.
  apply motion_only_bind; [apply motion_only_lift, spread_python | intros sp].
  motion.
Qed.

Lemma motion_only_retract params axis sense start pos positions :
  motion_only (retract host params axis sense start pos positions).
Proof.
  unfold retract. case_match; [|motion].
  apply motion_only_bind; [apply motion_only_manual_move | intros _].
  motion.
Qed.

Lemma motion_only_body params d axis sense v :
  motion_only (run_probe_body host cfg params d axis sense v).
Proof.
  unfold run_probe_body.
  apply motion_only_bind; [apply motion_only_bouncing_probe | intros pos].
  apply motion_only_bind; [apply motion_only_check | intros [retries positions]].
  apply motion_only_bind; [apply motion_only_retract | intros start].
  motion.
Qed.

(** *** The sampling loop *)

Lemma check_samples_tolerance_run params axis retries positions s :
  check_samples_tolerance params axis retries positions s =
  match spread axis positions with
  | Raise e => (Raise e, s)
  | Ok sp =>
      if Qltb (samples_tolerance params) sp then
        if (samples_tolerance_retries params <=? retries)%Z
        then (Raise ToleranceExceeded, s)
        else (Ok ((retries + 1)%Z, []), s)
      else (Ok (retries, positions), s)
  end.
Proof.
  unfold check_samples_tolerance. rewrite bind_run. unfold lift.
  destruct (spread axis positions) as [sp|e]; [|reflexivity].
  repeat case_match; reflexivity.
Qed.

Lemma body_ok params d axis sense v s v' s' :
  run_probe_body host cfg params d axis sense v s = (Ok v', s') ->
  exists pos s1 sp,
    _bouncing_probe host cfg (probe_speed params) d s = (Ok pos, s1)
    /\ spread axis (lv_positions v ++ [pos]) = Ok sp
    /\ (if Qltb (samples_tolerance params) sp
        then (lv_retries v < samples_tolerance_retries params)%Z
             /\ lv_retries v' = (lv_retries v + 1)%Z
             /\ lv_positions v' = []
        else lv_retries v' = lv_retries v
             /\ lv_positions v' = lv_positions v ++ [pos]).
Proof.
  unfold run_probe_body. intros H. rewrite bind_run in H.
  destruct (_bouncing_probe _ _ _ _ s) as [[pos|e] s1] eqn:Hpos; [|discriminate].
  rewrite bind_run, check_samples_tolerance_run in H.
  destruct (spread axis _) as [sp|e] eqn:Hsp; [|discriminate].
  exists pos, s1, sp. split; [reflexivity|]. split; [exact Hsp|].
  destruct (Qltb _ sp).
  - destruct (Z.leb_spec (samples_tolerance_retries params) (lv_retries v));
      [discriminate|].
    rewrite bind_run in H.
    destruct (retract _ _ _ _ _ _ _ _) as [[start|e] s2]; [|discriminate].
    injection H as <- <-. auto.
  - rewrite bind_run in H.
    destruct (retract _ _ _ _ _ _ _ _) as [[start|e] s2]; [|discriminate].
    injection H as <- <-. auto.
Qed.

Lemma body_budget params d axis sense v s v' s' :
  loop_guard params (lv_positions v) = true ->
  run_probe_body host cfg params d axis sense v s = (Ok v', s') ->
  (vars_budget params v' < vars_budget params v)%nat.
Proof.
  intros Hg H. apply body_ok in H as (pos & s1 & sp & _ & _ & H).
  unfold loop_guard in Hg. apply Z.ltb_lt in Hg.
  unfold vars_budget, loop_budget.
  destruct (Qltb _ sp).
  - destruct H as (Hr & -> & ->). cbn [length].
    replace (Z.to_nat (samples_tolerance_retries params - lv_retries v))
      with (S (Z.to_nat (samples_tolerance_retries params
                         - (lv_retries v + 1)))) by lia.
    rewrite Z.sub_0_r. lia.
  - destruct H as (-> & ->). rewrite length_app. cbn [length]. lia.
Qed.

Lemma guard_budget params v :
  loop_guard params (lv_positions v) = true ->
  (0 < vars_budget params v)%nat.
Proof.
  unfold loop_guard, vars_budget, loop_budget. intros Hg.
  apply Z.ltb_lt in Hg.
  generalize (Z.to_nat (samples_tolerance_retries params - lv_retries v)
              * Z.to_nat (samples params))%nat.
  intros k. lia.
Qed.

(** The budget that [run_probe] gives the loop is never used up. *)
Lemma run_probe_loop_fuel params d axis sense fuel : forall v s r s',
  (vars_budget params v <= fuel)%nat ->
  run_probe_loop host cfg fuel params d axis sense v s = (r, s') ->
  frame s s' /\ r <> Raise fuel_exhausted.
Proof.
  induction fuel as [|fuel IH]; intros v s r s' Hb H; cbn [run_probe_loop] in H.
  - destruct (loop_guard params (lv_positions v)) eqn:Hg.
    + apply guard_budget in Hg. lia.
    + injection H as <- <-. split; [apply frame_refl | discriminate].
  - destruct (loop_guard params (lv_positions v)) eqn:Hg.
    + rewrite bind_run in H.
      destruct (run_probe_body _ _ _ _ _ _ v s) as [[v1|e] s1] eqn:Hbody.
      * pose proof (body_budget _ _ _ _ _ _ _ _ Hg Hbody) as Hlt.
        destruct (motion_only_body _ _ _ _ _ _ _ _ Hbody) as [F1 _].
        destruct (IH v1 s1 r s' ltac:(lia) H) as [F2 Hr].
        split; [eapply frame_trans; eassumption | exact Hr].
      * injection H as <- <-.
        destruct (motion_only_body _ _ _ _ _ _ _ _ Hbody) as [F1 Hr].
        split; [exact F1|]. intros Heq. apply Hr. congruence.
    + injection H as <- <-. split; [apply frame_refl | discriminate].
Qed.

Lemma run_probe_loop_fuel_irrelevant params d axis sense fuel1 :
  forall fuel2 v s,
    (vars_budget params v <= fuel1)%nat ->
    (vars_budget params v <= fuel2)%nat ->
    run_probe_loop host cfg fuel1 params d axis sense v s
    = run_probe_loop host cfg fuel2 params d axis sense v s.
Proof.
  induction fuel1 as [|fuel1 IH]; intros fuel2 v s H1 H2;
    destruct fuel2 as [|fuel2]; cbn [run_probe_loop];
    destruct (loop_guard params (lv_positions v)) eqn:Hg; try reflexivity;
    try (apply guard_budget in Hg; lia).
  rewrite !bind_run.
  destruct (run_probe_body _ _ _ _ _ _ v s) as [[v1|e] s1] eqn:Hbody;
    [|reflexivity].
  pose proof (body_budget _ _ _ _ _ _ _ _ Hg Hbody) as Hlt.
  apply IH; lia.
Qed.

Lemma loop_reaches_run params d axis sense v0 s0 v s :
  loop_reaches params d axis sense v0 s0 v s ->
  forall fuel0 fuel,
    (vars_budget params v0 <= fuel0)%nat ->
    (vars_budget params v <= fuel)%nat ->
    run_probe_loop host cfg fuel0 params d axis sense v0 s0
    = run_probe_loop host cfg fuel params d axis sense v s.
Proof.
  induction 1 as [|v s v' s' Hreach IH Hg Hbody]; intros fuel0 fuel H0 Hf.
  - now apply run_probe_loop_fuel_irrelevant.
  - pose proof (body_budget _ _ _ _ _ _ _ _ Hg Hbody) as Hlt.
    rewrite (IH fuel0 (S (Nat.max fuel (vars_budget params v))) H0
               ltac:(lia)).
    cbn [run_probe_loop]. rewrite Hg, bind_run, Hbody.
    apply run_probe_loop_fuel_irrelevant; lia.
Qed.

Lemma loop_reaches_invariant params d axis sense v0 s0 v s :
  loop_reaches params d axis sense v0 s0 v s ->
  (Z.of_nat (length (lv_positions v0)) <= samples params)%Z ->
  (0 <= lv_retries v0)%Z ->
  (Z.of_nat (length (lv_positions v)) <= samples params)%Z
  /\ (0 <= lv_retries v)%Z
  /\ frame s0 s.
Proof.
  induction 1 as [|v s v' s' Hreach IH Hg Hbody]; intros Hlen Hret.
  - auto using frame_refl.
  - destruct (IH Hlen Hret) as (IHl & IHr & IHf).
    destruct (motion_only_body _ _ _ _ _ _ _ _ Hbody) as [F _].
    apply body_ok in Hbody as (pos & s1 & sp & _ & _ & H).
    unfold loop_guard in Hg. apply Z.ltb_lt in Hg.
    split; [|split; [|eapply frame_trans; eassumption]].
    + destruct (Qltb _ sp).
      * destruct H as (_ & _ & ->). cbn [length]. lia.
      * destruct H as (_ & ->). rewrite length_app. cbn [length]. lia.
    + destruct (Qltb _ sp).
      * destruct H as (_ & -> & _). lia.
      * destruct H as (-> & _). lia.
Qed.

Lemma spread_snoc axis positions pos :
  exists sp, spread axis (positions ++ [pos]) = Ok sp.
Proof.
  unfold spread. rewrite map_app. cbn [map].
  destruct (map _ positions); simpl; eauto.
Qed.

Lemma body_violation params d axis sense v s pos s1 sp :
  _bouncing_probe host cfg (probe_speed params) d s = (Ok pos, s1) ->
  spread axis (lv_positions v ++ [pos]) = Ok sp ->
  Qltb (samples_tolerance params) sp = true ->
  run_probe_body host cfg params d axis sense v s =
  if (samples_tolerance_retries params <=? lv_retries v)%Z
  then (Raise ToleranceExceeded, s1)
  else (retract host params axis sense (lv_start_position v) pos []
        ≫= λ start, mret (mkLoop start (lv_retries v + 1) [])) s1.
Proof.
  intros Hpos Hsp Hviol. unfold run_probe_body.
  rewrite bind_run, Hpos, bind_run, check_samples_tolerance_run, Hsp, Hviol.
  destruct (_ <=? _)%Z; reflexivity.
Qed.

Lemma run_probe_loop_ok params d axis sense fuel : forall v0 s0 positions s',
  run_probe_loop host cfg fuel params d axis sense v0 s0 = (Ok positions, s') ->
  exists v,
    loop_reaches params d axis sense v0 s0 v s'
    /\ lv_positions v = positions
    /\ loop_guard params positions = false.
Proof.
  induction fuel as [|fuel IH]; intros v0 s0 positions s' H;
    cbn [run_probe_loop] in H;
    destruct (loop_guard params (lv_positions v0)) eqn:Hg; try discriminate.
  - injection H as <- <-. exists v0. auto using reaches_start.
  - rewrite bind_run in H.
    destruct (run_probe_body _ _ _ _ _ _ v0 s0) as [[v1|e] s1] eqn:Hbody;
      [|discriminate].
    destruct (IH _ _ _ _ H) as (v & Hreach & Hp & Hgf).
    exists v. split; [|auto].
    clear -Hreach Hg Hbody.
    induction Hreach; [eapply reaches_round; eauto using reaches_start|].
    eapply reaches_round; eauto.
  - injection H as <- <-. exists v0. auto using reaches_start.
Qed.

(** C4.  In every state in which the loop of [run_probe] tests its
    condition the buffer of raw samples holds at most [samples] elements,
    and so does the buffer with the next sample appended and the list
    handed to the aggregation; when the spread of the buffer with the new
    sample exceeds the tolerance, the round either raises the tolerance
    error or goes on with the empty buffer and one more retry. *)
Theorem sample_buffer_bounded params d axis sense v0 s0 v s :
  (1 <= samples params)%Z ->
  lv_positions v0 = [] ->
  loop_reaches params d axis sense v0 s0 v s ->
  (Z.of_nat (length (lv_positions v)) <= samples params)%Z
  /\ (forall pos s1,
        loop_guard params (lv_positions v) = true ->
        _bouncing_probe host cfg (probe_speed params) d s = (Ok pos, s1) ->
        let buffer := lv_positions v ++ [pos] in
        (Z.of_nat (length buffer) <= samples params)%Z
        /\ forall sp,
             spread axis buffer = Ok sp ->
             Qltb (samples_tolerance params) sp = true ->
             ((samples_tolerance_retries params <= lv_retries v)%Z
              /\ run_probe_body host cfg params d axis sense v s
                 = (Raise ToleranceExceeded, s1))
             \/ ((lv_retries v < samples_tolerance_retries params)%Z
                 /\ run_probe_body host cfg params d axis sense v s
                    = (retract host params axis sense (lv_start_position v)
                         pos []
                       ≫= λ start,
                          mret (mkLoop start (lv_retries v + 1) [])) s1))
  /\ (forall fuel positions s',
        run_probe_loop host cfg fuel params d axis sense v s
        = (Ok positions, s') ->
        (Z.of_nat (length positions) <= samples params)%Z).
Proof.
  intros Hs H0 Hreach.
  assert (Hlen0 : (Z.of_nat (length (lv_positions v0)) <= samples params)%Z)
    by (rewrite H0; simpl; lia).
  assert (Hinv : forall v' s',
            loop_reaches params d axis sense v0 s0 v' s' ->
            (Z.of_nat (length (lv_positions v')) <= samples params)%Z).
  { clear -Hlen0. induction 1 as [|v s v' s' Hreach IH Hg Hbody]; [assumption|].
    apply body_ok in Hbody as (pos & s1 & sp & _ & _ & H).
    unfold loop_guard in Hg. apply Z.ltb_lt in Hg.
    destruct (Qltb _ sp).
    - destruct H as (_ & _ & ->). cbn [length]. lia.
    - destruct H as (_ & ->). rewrite length_app. cbn [length]. lia. }
  split; [exact (Hinv _ _ Hreach)|]. split.
  - intros pos s1 Hg Hpos buffer. split.
    + unfold buffer. rewrite length_app. cbn [length].
      unfold loop_guard in Hg. apply Z.ltb_lt in Hg. lia.
    + intros sp Hsp Hviol.
      rewrite (body_violation _ _ _ _ _ _ _ _ _ Hpos Hsp Hviol).
      destruct (Z.leb_spec (samples_tolerance_retries params) (lv_retries v));
        [left | right]; auto.
  - intros fuel positions s' Hrun.
    apply run_probe_loop_ok in Hrun as (v' & Hreach' & <- & _).
    apply (Hinv v' s'). clear -Hreach Hreach'.
    induction Hreach'; [assumption | eapply reaches_round; eauto].
Qed.

Lemma run_probe_raise gcmd d s e s' :
  run_probe host cfg gcmd d s = (Raise e, s') ->
  frame s s' /\ e <> fuel_exhausted.
Proof.
  unfold run_probe. intros H. rewrite bind_run in H. cbn [get_state] in H.
  rewrite bind_run in H.
  destruct (negb (multi_probe_pending s)).
  { injection H as <- <-. split; [apply frame_refl | discriminate]. }
  cbn [mret M_ret] in H. rewrite bind_run in H. unfold lift at 1 in H.
  destruct (get_probe_params cfg gcmd) as [params|e0] eqn:Hparams.
  2:{ injection H as <- <-. split; [apply frame_refl|].
      unfold get_probe_params, result_bind, get_float_above,
        get_float_minval, get_int_minval in Hparams.
      repeat case_match; simplify_eq; discriminate. }
  destruct (direction_types !! d) as [[axis sense]|];
    [|injection H as <- <-; split; [apply frame_refl | discriminate]].
  rewrite bind_run, get_position_run, bind_run in H.
  destruct (run_probe_loop _ _ _ _ _ _ _ _ s) as [[positions|e1] s1] eqn:Hloop.
  - apply run_probe_loop_fuel in Hloop as [F _]; [|reflexivity].
    rewrite bind_run in H. unfold lift at 1 in H.
    destruct (_calculate_results _ _ _) as [r|e2] eqn:Hcalc; [discriminate|].
    injection H as <- <-. split; [exact F|].
    unfold _calculate_results, _calc_median, _calc_mean in Hcalc.
    repeat case_match; simplify_eq; discriminate.
  - injection H as <- <-.
    apply run_probe_loop_fuel in Hloop as [F Hr]; [|reflexivity].
    split; [exact F | congruence].
Qed.

(** C5.  When a sample that breaks the tolerance arrives in a round of
    [run_probe] in which [retries] has reached [samples_tolerance_retries]
    (always so when that is 0), [run_probe] raises the tolerance error in
    the state of that moment and the result buffer is as on entry. *)
Theorem tolerance_violation_fatal gcmd d s params axis sense v s1 pos s2 sp :
  multi_probe_pending s = true ->
  get_probe_params cfg gcmd = Ok params ->
  direction_types !! d = Some (axis, sense) ->
  loop_reaches params d axis sense (mkLoop (toolhead_position s) 0 []) s v s1 ->
  loop_guard params (lv_positions v) = true ->
  _bouncing_probe host cfg (probe_speed params) d s1 = (Ok pos, s2) ->
  spread axis (lv_positions v ++ [pos]) = Ok sp ->
  Qltb (samples_tolerance params) sp = true ->
  (samples_tolerance_retries params <= lv_retries v)%Z
  \/ samples_tolerance_retries params = 0%Z ->
  run_probe host cfg gcmd d s = (Raise ToleranceExceeded, s2)
  /\ results s2 = results s.
Proof.
  intros Hpend Hparams Hd Hreach Hg Hpos Hsp Hviol Hmax.
  destruct (loop_reaches_invariant _ _ _ _ _ _ _ _ Hreach) as (_ & Hret & _);
    [simpl; unfold loop_guard in Hg; apply Z.ltb_lt in Hg; lia | simpl; lia |].
  assert (Hle : (samples_tolerance_retries params <= lv_retries v)%Z)
    by (destruct Hmax; lia).
  assert (Hrun : run_probe host cfg gcmd d s = (Raise ToleranceExceeded, s2)).
  { unfold run_probe. rewrite bind_run. cbn [get_state].
    rewrite bind_run, Hpend. cbn [negb mret M_ret].
    rewrite bind_run. unfold lift at 1. rewrite Hparams, Hd.
    rewrite bind_run, get_position_run, bind_run.
    pose proof (guard_budget _ _ Hg) as Hb.
    rewrite (loop_reaches_run _ _ _ _ _ _ _ _ Hreach (loop_budget params 0 0)
               (vars_budget params v) ltac:(reflexivity) ltac:(lia)).
    destruct (vars_budget params v) as [|fuel]; [lia|].
    cbn [run_probe_loop]. rewrite Hg, bind_run.
    rewrite (body_violation _ _ _ _ _ _ _ _ _ Hpos Hsp Hviol).
    apply Z.leb_le in Hle. rewrite Hle. reflexivity. }
  split; [exact Hrun|].
  apply run_probe_raise in Hrun as [F _]. apply F.
Qed.
End Frame.

Lemma sample_buffer_bounded_witness :
  exists v s,
    loop_reaches host0 cfg2 params2 "x-" Axis0 (-1) loop_start st_active v s
    /\ length (lv_positions v) = 1%nat
    /\ (Z.of_nat (length (lv_positions v)) <= samples params2)%Z.
Proof.
  eexists _, _. split; [|split].
  - eapply reaches_round;
      [apply reaches_start | vm_compute; reflexivity
      | vm_compute; reflexivity].
  - reflexivity.
  - eapply proj1.
    eapply (sample_buffer_bounded host0 cfg2 params2 "x-" Axis0 (-1)
              loop_start st_active).
    + vm_compute. discriminate.
    + reflexivity.
    + eapply reaches_round;
        [apply reaches_start | vm_compute; reflexivity
        | vm_compute; reflexivity].
Defined.

Lemma tolerance_violation_fatal_witness :
  exists s2,
    run_probe host0 cfg2 dummy_gcode_cmd "x-" st_active
    = (Raise ToleranceExceeded, s2)
    /\ results s2 = results st_active.
Proof.
  eexists.
  eapply (tolerance_violation_fatal host0 cfg2 dummy_gcode_cmd "x-" st_active
            params2 Axis0 (-1)).
  - reflexivity.
  - reflexivity.
  - vm_compute. reflexivity.
  - eapply reaches_round;
      [apply reaches_start | vm_compute; reflexivity
      | vm_compute; reflexivity].
  - vm_compute. reflexivity.
  - vm_compute. reflexivity.
  - vm_compute. reflexivity.
  - vm_compute. reflexivity.
  - right. reflexivity.
Defined.

(** ** The result buffer *)

Section Results.
Variable host : Host.
Variable cfg : Config.

(** A successful [run_probe] appends the aggregate of [samples] raw
    samples at the end of the buffer. *)
Lemma run_probe_ok gcmd d s u s' :
  run_probe host cfg gcmd d s = (Ok u, s') ->
  exists r,
    results s' = results s ++ [r]
    /\ multi_probe_pending s' = multi_probe_pending s.
Proof.
  unfold run_probe. intros H. rewrite bind_run in H. cbn [get_state] in H.
  rewrite bind_run in H.
  destruct (negb (multi_probe_pending s)); [discriminate|].
  cbn [mret M_ret] in H. rewrite bind_run in H. unfold lift at 1 in H.
  destruct (get_probe_params cfg gcmd) as [params|e0]; [|discriminate].
  destruct (direction_types !! d) as [[axis sense]|]; [|discriminate].
  rewrite bind_run, get_position_run, bind_run in H.
  destruct (run_probe_loop _ _ _ _ _ _ _ _ s) as [[positions|e1] s1] eqn:Hloop;
    [|discriminate].
  apply run_probe_loop_fuel in Hloop as [(Fp & Fr & _) _]; [|reflexivity].
  rewrite bind_run in H. unfold lift at 1 in H.
  destruct (_calculate_results _ _ _) as [r|e2]; [|discriminate].
  injection H as <- <-. exists r. cbn [results set_results multi_probe_pending].
  now rewrite Fr, Fp.
Qed.

(** C8.  In either state of the session [pull_probed_results] returns
    the buffer as it is, oldest result first, and leaves it empty, so
    that a second pull returns the empty list; the pending flag is not
    touched.  The buffer is in the order of the appends because
    [run_probe] adds its result at the end. *)
Theorem pull_consumes_once (gcmd : GCodeCommand) (d : string) (s : State) :
  pull_probed_results s = (Ok (results s), set_results [] s)
  /\ pull_probed_results (set_results [] s) = (Ok [], set_results [] s)
  /\ multi_probe_pending (set_results [] s) = multi_probe_pending s
  /\ forall s',
       run_probe host cfg gcmd d s = (Ok tt, s') ->
       exists r, pull_probed_results s'
                 = (Ok (results s ++ [r]), set_results [] s').
Proof.
  repeat split.
  intros s' H. apply run_probe_ok in H as (r & Hr & _).
  exists r. unfold pull_probed_results. rewrite bind_run. cbn [get_state].
  rewrite bind_run. cbn [modify mret M_ret]. now rewrite Hr.
Qed.
End Results.

Lemma pull_consumes_once_witness :
  exists s' r,
    run_probe host0 cfg1 dummy_gcode_cmd "z-" st_active = (Ok tt, s')
    /\ pull_probed_results s'
       = (Ok (results st_active ++ [r]), set_results [] s').
Proof.
  eexists _.
  assert (H : run_probe host0 cfg1 dummy_gcode_cmd "z-" st_active
              = (Ok tt, (run_probe host0 cfg1 dummy_gcode_cmd "z-"
                           st_active).2))
    by (vm_compute; reflexivity).
  destruct (proj2 (proj2 (proj2
              (pull_consumes_once host0 cfg1 dummy_gcode_cmd "z-" st_active)))
              _ H) as [r Hr].
  exists r. split; [exact H | exact Hr].
Defined.

(** ** The accuracy report *)

(** On the vertical axis the report is the one over the configured axis. *)
Lemma accuracy_statistics_vertical positions :
  accuracy_statistics Axis2 positions
  = accuracy_statistics_on_axis Axis2 positions.
Proof. reflexivity. Qed.

(** C7 fails on the code.  First a whole run: PROBE_ACCURACY towards x-
    with four samples, on a machine at (10, 20, 30) whose probe makes
    contact at x = 0.04, 0.12, 0.20 and 0.28.  The mean 0.16 is that of the
    x values, but the variance is that of z = 30 around 0.16, which is
    890.4256, where the x values have variance 0.008.  Then the median: for
    results with first coordinates 2.0, 2.1, 1.9, 2.0 the report has the
    maximum, minimum, range and mean of these four values, but its median
    comes from sorting on the third coordinate (2.05 instead of 2.0). *)
Theorem accuracy_deviation_on_third_coordinate :
  (exists report s' on_axis,
     cmd_PROBE_ACCURACY host0 cfg0 accuracy_x st0 = (Ok report, s')
     /\ accuracy_statistics Axis0 probed_along_x = Ok report
     /\ accuracy_statistics_on_axis Axis0 probed_along_x = Ok on_axis
     /\ (avg_value report == 0.16 /\ sigma_squared report == 890.4256)%Q
     /\ (avg_value on_axis == 0.16 /\ sigma_squared on_axis == 0.008)%Q)
  /\ exists coded on_axis,
       accuracy_statistics Axis0 accuracy_sample = Ok coded
       /\ accuracy_statistics_on_axis Axis0 accuracy_sample = Ok on_axis
       /\ (max_value coded == 2.1 /\ min_value coded == 1.9
           /\ range_value coded == 0.2 /\ avg_value coded == 2.0)%Q
       /\ (median on_axis == 2.0 /\ sigma_squared on_axis == 0.005)%Q
       /\ (median coded == 2.05 /\ sigma_squared coded == 1.5)%Q.
Proof.
  split.
  - eexists _, _, _. split; [vm_compute; reflexivity|].
    split; [vm_compute; reflexivity|].
    split; [vm_compute; reflexivity|].
    repeat split; reflexivity.
  - eexists _, _. split; [vm_compute; reflexivity|].
    split; [vm_compute; reflexivity|].
    repeat split; reflexivity.
Qed.

(** ** Ending a session *)

Lemma lookup_z_minus : direction_types !! "z-" = Some (Axis2, (-1)%Z).
Proof. vm_compute. reflexivity. Qed.

(** [multi_probe_end] does not touch the session. *)
Lemma multi_probe_end_session host axis s r s' :
  multi_probe_end host axis s = (r, s') ->
  multi_probe_pending s' = multi_probe_pending s /\ results s' = results s.
Proof.
  unfold multi_probe_end, mcu_probe, _raise_probe, set_multi, mcu_probe,
    get_position.
  run_monad. intros H. repeat case_match; simplify_eq; auto.
Qed.

(** Once the state test has passed, [end_probe_session] leaves the session
    idle with an empty buffer, whether or not the wrapper raises. *)
Lemma end_probe_session_idle host d axis sense s r s' :
  multi_probe_pending s = true ->
  direction_types !! d = Some (axis, sense) ->
  end_probe_session host d s = (r, s') ->
  multi_probe_pending s' = false /\ results s' = []
  /\ multi_probe_end host axis
       (set_multi_probe_pending false (set_results [] s)) = (r, s').
Proof.
  intros Hp Hd. unfold end_probe_session.
  rewrite bind_run. cbn [get_state]. rewrite bind_run, Hp.
  cbn [negb mret M_ret]. rewrite bind_run. unfold lookup_direction.
  rewrite Hd. cbn [mret M_ret]. rewrite !bind_run. cbn [modify].
  intros H. split; [|split]; [| |exact H];
    apply multi_probe_end_session in H as [H1 H2]; rewrite ?H1, ?H2;
      reflexivity.
Qed.

(** C10 fails on the code.  The handler of a command error never raises
    and leaves the session idle, so the error of a forced end is indeed
    swallowed; but it ends the session with the default direction: for a
    session begun towards x- the wrapper of the x axis is still in
    multi-probe mode afterwards, while the script of the z wrapper ran. *)
Theorem forced_end_keeps_horizontal_hold :
  (forall host s,
     exists s',
       _handle_command_error host s = (Ok tt, s')
       /\ multi_probe_pending s' = false)
  /\ exists s1 s2,
       start_probe_session "x-" st0 = (Ok tt, s1)
       /\ holds_probe s1 Axis0
       /\ _handle_command_error host0 s1 = (Ok tt, s2)
       /\ multi_probe_pending s2 = false
       /\ holds_probe s2 Axis0
       /\ new_events s1 s2 = [ev_deactivate_gcode].
Proof.
  split.
  - intros host s. unfold _handle_command_error.
    rewrite bind_run. cbn [get_state].
    destruct (multi_probe_pending s) eqn:Hp; [|eauto].
    unfold try_except.
    destruct (end_probe_session host "z-" s) as [[[]|e] s1] eqn:He;
      destruct (end_probe_session_idle _ _ _ _ _ _ _ Hp lookup_z_minus He)
        as (Hidle & _); eauto.
  - eexists _, _. split; [vm_compute; reflexivity|].
    split; [eexists; split; [vm_compute; reflexivity | discriminate]|].
    split; [vm_compute; reflexivity|].
    split; [reflexivity|].
    split; [eexists; split; [vm_compute; reflexivity | discriminate]|].
    reflexivity.
Qed.


(** ** Bounce refinement on a cooperative machine *)

Section Cooperative.
Variable host : Host.
Variable cfg : Config.
Hypothesis Hcoop : cooperative host.

Lemma probe_returns v d axis sense s :
  direction_types !! d = Some (axis, sense) ->
  is_Some (mcu_probes s !! axis_index axis) ->
  exists target contact,
    _probe host cfg v d s
    = (Ok contact,
       set_toolhead_position contact
         (emit (ev_probing_move axis target v (Contact contact)) s)).
Proof.
  destruct Hcoop as (Hx & Hy & Hz & [amin Hmin] & [amax Hmax] & Hprobe & _).
  intros Hd [w Hw]. unfold _probe.
  rewrite bind_run. unfold check_homed. rewrite Hx, Hy, Hz.
  cbn [negb orb mret M_ret]. rewrite bind_run.
  unfold lookup_direction at 1. rewrite Hd. cbn [mret M_ret].
  rewrite bind_run.
  assert (Ht : exists target,
             _get_target_position host cfg d s = (Ok target, s)).
  { unfold _get_target_position. rewrite bind_run.
    unfold lookup_direction. rewrite Hd. cbn [mret M_ret].
    rewrite bind_run, get_position_run, Hmin, Hmax.
    destruct (0 <? sense)%Z; eauto. }
  destruct Ht as [target ->]. exists target.
  destruct (Hprobe (length (trace s)) axis target v) as [contact Hc].
  exists contact. unfold try_except, probing_move.
  rewrite bind_run. unfold mcu_probe at 1. rewrite bind_run.
  cbn [get_state]. rewrite Hw. cbn [mret M_ret].
  rewrite bind_run. cbn [get_state]. rewrite bind_run. cbn [modify].
  rewrite Hc. reflexivity.
Qed.

Lemma bounce_loop_returns d axis sense lift todo : forall start v last s,
  direction_types !! d = Some (axis, sense) ->
  is_Some (mcu_probes s !! axis_index axis) ->
  (todo = 0%nat -> is_Some last) ->
  exists pos s',
    bounce_loop host cfg todo d axis sense lift start v last s
    = (Ok (Some pos), s').
Proof.
  destruct Hcoop as (_ & _ & _ & _ & _ & _ & Hmove).
  induction todo as [|todo IH]; intros start v last s Hd Hw Hlast.
  - destruct (Hlast eq_refl) as [pos ->]. cbn [bounce_loop]. eauto.
  - cbn [bounce_loop].
    destruct (probe_returns v d axis sense s Hd Hw) as (target & c & Hp).
    rewrite bind_run, Hp, bind_run. unfold manual_move.
    rewrite bind_run. cbn [modify]. rewrite Hmove. cbn [modify].
    apply IH; [exact Hd | exact Hw | eauto].
Qed.

(** On a homed cartesian machine whose probe always finds a contact and
    whose toolhead accepts every move, bounce refinement returns. *)
Lemma bouncing_probe_returns v d axis sense s :
  direction_types !! d = Some (axis, sense) ->
  is_Some (mcu_probes s !! axis_index axis) ->
  exists pos s', _bouncing_probe host cfg v d s = (Ok pos, s').
Proof.
  intros Hd Hw. unfold _bouncing_probe.
  rewrite bind_run, get_position_run, bind_run.
  unfold lookup_direction. rewrite Hd. cbn [mret M_ret].
  destruct (bounce_loop_returns d axis sense (v * 2.0)%Q bounce_count
              (toolhead_position s) v None s Hd Hw ltac:(discriminate))
    as (pos & s' & Hloop).
  rewrite bind_run, Hloop. unfold send_event.
  rewrite bind_run. cbn [modify mret M_ret]. eauto.
Qed.
End Cooperative.

(** * Further properties of the module *)

(** ** Parameters *)



Lemma get_int_minval_ok name v default a x :
  get_int_minval name v default a = Ok x ->
  (v = None /\ x = default) \/ (v = Some x /\ (a <= x)%Z).
Proof.
  unfold get_int_minval. destruct v as [y|]; [|intros [= <-]; auto].
  destruct (Z.ltb_spec y a); [discriminate|]. intros [= <-]. auto.
Qed.

Lemma result_bind_ok {A B} (r : Result A) (k : A -> Result B) b :
  result_bind r k = Ok b -> exists a, r = Ok a /\ k a = Ok b.
Proof. destruct r as [a|e]; [eauto | discriminate]. Qed.






(** ** Targets, homing and directions *)

Lemma py_min_le_l a b : (py_min a b <= a)%Q.
Proof.
  unfold py_min. destruct (Qltb b a) eqn:E.
  - apply Qltb_lt in E. now apply Qlt_le_weak.
  - apply Qle_refl.
Qed.

Lemma py_min_le_r a b : (py_min a b <= b)%Q.
Proof.
  unfold py_min. destruct (Qltb b a) eqn:E.
  - apply Qle_refl.
  - now apply Qltb_ge in E.
Qed.

Lemma py_max_ge_l a b : (a <= py_max a b)%Q.
Proof.
  unfold py_max. destruct (Qltb a b) eqn:E.
  - apply Qltb_lt in E. now apply Qlt_le_weak.
  - apply Qle_refl.
Qed.

Lemma py_max_ge_r a b : (b <= py_max a b)%Q.
Proof.
  unfold py_max. destruct (Qltb a b) eqn:E.
  - apply Qle_refl.
  - now apply Qltb_ge in E.
Qed.

Lemma get_set_axis p a v : get_axis (set_axis p a v) a = v.
Proof. destruct a; reflexivity. Qed.

Lemma get_set_axis_other p a b v :
  a <> b -> get_axis (set_axis p a v) b = get_axis p b.
Proof. destruct a, b; intros H; try reflexivity; contradiction. Qed.

Lemma direction_sense d axis sense :
  direction_types !! d = Some (axis, sense) -> sense = 1%Z \/ sense = (-1)%Z.
Proof.
  intros H. apply elem_of_list_to_map_2 in H.
  repeat (apply elem_of_cons in H as [H|H]; [injection H as -> -> ->; auto|]).
  inversion H.
Qed.

(** X3.  The target of a probing move differs from the toolhead position
    on the probed axis only; towards + it is at most [max_distance] further
    and never beyond [axis_maximum], towards - at most [max_distance] back
    and never below [axis_minimum].  Computing it changes nothing. *)
Theorem target_within_travel (host : Host) (cfg : Config) (d : string)
    (s s' : State) (target : Position) :
  _get_target_position host cfg d s = (Ok target, s') ->
  exists axis sense,
    direction_types !! d = Some (axis, sense)
    /\ s' = s
    /\ (forall a, a <> axis ->
          get_axis target a = get_axis (toolhead_position s) a)
    /\ (sense = 1%Z ->
          exists amax,
            axis_maximum host = Some amax
            /\ (get_axis target axis <= get_axis amax axis)%Q
            /\ (get_axis target axis
                <= get_axis (toolhead_position s) axis
                   + cfg_max_distance cfg)%Q)
    /\ (sense = (-1)%Z ->
          exists amin,
            axis_minimum host = Some amin
            /\ (get_axis amin axis <= get_axis target axis)%Q
            /\ (get_axis (toolhead_position s) axis - cfg_max_distance cfg
                <= get_axis target axis)%Q).
Proof.
  unfold _get_target_position. intros H.
  inv_bind H. destruct a as [axis sense].
  apply lookup_direction_ok in Hm as [Hd ->].
  inv_bind H. apply get_position_ok in Hm as [-> ->].
  exists axis, sense. split; [exact Hd|].
  destruct (axis_minimum host) as [amin|]; [|discriminate].
  destruct (direction_sense _ _ _ Hd) as [-> | ->]; cbn in H.
  - destruct (axis_maximum host) as [amax|]; [|discriminate].
    injection H as <- <-. split; [reflexivity|]. split; [|split].
    + intros a Ha. apply get_set_axis_other. congruence.
    + intros _. exists amax. rewrite get_set_axis.
      split; [reflexivity|]. split; [apply py_min_le_r | apply py_min_le_l].
    + discriminate.
  - injection H as <- <-. split; [reflexivity|]. split; [|split].
    + intros a Ha. apply get_set_axis_other. congruence.
    + discriminate.
    + intros _. exists amin. rewrite get_set_axis.
      split; [reflexivity|]. split; [apply py_max_ge_r | apply py_max_ge_l].
Qed.

Lemma target_within_travel_witness :
  exists axis sense,
    direction_types !! "z-" = Some (axis, sense)
    /\ st0 = st0
    /\ (forall a, a <> axis ->
          get_axis (mkPos 10 20 20) a = get_axis (toolhead_position st0) a)
    /\ (sense = 1%Z ->
          exists amax,
            axis_maximum host0 = Some amax
            /\ (get_axis (mkPos 10 20 20) axis <= get_axis amax axis)%Q
            /\ (get_axis (mkPos 10 20 20) axis
                <= get_axis (toolhead_position st0) axis
                   + cfg_max_distance cfg0)%Q)
    /\ (sense = (-1)%Z ->
          exists amin,
            axis_minimum host0 = Some amin
            /\ (get_axis amin axis <= get_axis (mkPos 10 20 20) axis)%Q
            /\ (get_axis (toolhead_position st0) axis - cfg_max_distance cfg0
                <= get_axis (mkPos 10 20 20) axis)%Q).
Proof.
  apply (target_within_travel host0 cfg0 "z-" st0 st0 (mkPos 10 20 20)).
  vm_compute. reflexivity.
Defined.

Lemma check_homed_unhomed host s :
  unhomed host ->
  check_homed host s = (Raise (command_error "Must home before probe"), s).
Proof.
  unfold check_homed. intros [H|[H|H]]; rewrite H; cbn [negb orb];
    [reflexivity| |]; destruct (negb _); cbn [orb]; try reflexivity;
    destruct (negb _); reflexivity.
Qed.

(** X4.  On a machine with an axis not homed, an active session asked to
    probe in a known direction makes no move at all: [run_probe] raises
    "Must home before probe" and the state, trace included, is as before. *)
Theorem run_probe_requires_homing (host : Host) (cfg : Config)
    (gcmd : GCodeCommand) (d : string) (s : State) (params : Params) :
  unhomed host ->
  multi_probe_pending s = true ->
  get_probe_params cfg gcmd = Ok params ->
  (1 <= samples params)%Z ->
  is_Some (direction_types !! d) ->
  run_probe host cfg gcmd d s
  = (Raise (command_error "Must home before probe"), s).
Proof.
  intros Hu Hp Hparams Hs [[axis sense] Hd].
  unfold run_probe. rewrite bind_run. cbn [get_state].
  rewrite bind_run, Hp. cbn [negb mret M_ret].
  rewrite bind_run. unfold lift at 1. rewrite Hparams, Hd.
  rewrite bind_run, get_position_run, bind_run.
  assert (Hb : (0 < loop_budget params 0 0)%nat).
  { unfold loop_budget. cbn [length].
    generalize (Z.to_nat (samples_tolerance_retries params - 0)
                * Z.to_nat (samples params))%nat. intros k. lia. }
  destruct (loop_budget params 0 0) as [|fuel]; [lia|].
  cbn [run_probe_loop lv_positions]. unfold loop_guard. cbn [length].
  destruct (Z.ltb_spec (Z.of_nat 0) (samples params)); [|lia].
  rewrite bind_run. unfold run_probe_body. rewrite bind_run.
  unfold _bouncing_probe. rewrite bind_run, get_position_run, bind_run.
  unfold lookup_direction at 1. rewrite Hd. cbn [mret M_ret].
  rewrite bind_run. unfold bounce_count. cbn [bounce_loop].
  rewrite bind_run. unfold _probe. rewrite bind_run.
  rewrite (check_homed_unhomed _ _ Hu). reflexivity.
Qed.

Lemma run_probe_requires_homing_witness :
  run_probe host_unhomed cfg0 dummy_gcode_cmd "x+" st_active
  = (Raise (command_error "Must home before probe"), st_active).
Proof.
  apply (run_probe_requires_homing host_unhomed cfg0 dummy_gcode_cmd "x+"
           st_active (mkParams 5 5 10 3 2 0.1 0 "average")).
  - right. right. vm_compute. reflexivity.
  - reflexivity.
  - vm_compute. reflexivity.
  - vm_compute. discriminate.
  - eexists. vm_compute. reflexivity.
Defined.

(** X5.  A direction that is not in the table is refused before anything
    is done, with a different error on each path: an active session's
    [run_probe] raises the command error "Wrong value for DIRECTION.",
    [start_probe_session] on an idle session and [end_probe_session] on an
    active one raise [KeyError]; in all three the state is as before, so a
    session that could not be ended this way is still active. *)
Theorem unknown_direction_refused (host : Host) (cfg : Config)
    (gcmd : GCodeCommand) (d : string) (s : State) :
  direction_types !! d = None ->
  if multi_probe_pending s
  then end_probe_session host d s = (Raise (KeyError d), s)
       /\ (is_Some_result (get_probe_params cfg gcmd) = true ->
           run_probe host cfg gcmd d s
           = (Raise (command_error "Wrong value for DIRECTION."), s))
  else start_probe_session d s = (Raise (KeyError d), s).
Proof.
  intros Hd. destruct (multi_probe_pending s) eqn:Hp.
  - split.
    + unfold end_probe_session. rewrite bind_run. cbn [get_state].
      rewrite bind_run, Hp. cbn [negb mret M_ret]. rewrite bind_run.
      unfold lookup_direction. rewrite Hd. reflexivity.
    + intros Hok. unfold run_probe. rewrite bind_run. cbn [get_state].
      rewrite bind_run, Hp. cbn [negb mret M_ret].
      rewrite bind_run. unfold lift at 1.
      destruct (get_probe_params cfg gcmd); [|discriminate].
      now rewrite Hd.
  - unfold start_probe_session. rewrite bind_run. cbn [get_state].
    rewrite bind_run, Hp. cbn [mret M_ret]. rewrite bind_run.
    unfold lookup_direction. rewrite Hd. reflexivity.
Qed.

Lemma unknown_direction_refused_witness :
  end_probe_session host0 "up" st_active = (Raise (KeyError "up"), st_active)
  /\ (is_Some_result (get_probe_params cfg0 dummy_gcode_cmd) = true ->
      run_probe host0 cfg0 dummy_gcode_cmd "up" st_active
      = (Raise (command_error "Wrong value for DIRECTION."), st_active)).
Proof.
  apply (unknown_direction_refused host0 cfg0 dummy_gcode_cmd "up" st_active).
  vm_compute. reflexivity.
Defined.

(** ** What a successful [run_probe] has sampled *)

Section Accepted.
Variable host : Host.
Variable cfg : Config.




End Accepted.


(** ** How many probing moves a sample can cost *)

Lemma count_events_app f l l' :
  count_events f (l ++ l') = (count_events f l + count_events f l')%nat.
Proof. unfold count_events. now rewrite List.filter_app, length_app. Qed.

Section Adds.
Variable f : Event -> bool.

Lemma adds_bind {A B} n1 n2 (m : M A) (k : A -> M B) :
  adds_at_most f n1 m -> (forall a, adds_at_most f n2 (k a)) ->
  adds_at_most f (n1 + n2) (m ≫= k).
Proof.
  intros Hm Hk s r s'. rewrite bind_run.
  destruct (m s) as [[a|e] s1] eqn:E; intros H.
  - apply Hm in E as (l1 & E1 & H1). apply Hk in H as (l2 & E2 & H2).
    exists (l1 ++ l2). rewrite E2, E1, <- app_assoc, count_events_app.
    split; [reflexivity | lia].
  - injection H as <- <-. apply Hm in E as (l1 & E1 & H1).
    exists l1. split; [exact E1 | lia].
Qed.

Lemma adds_weaken {A} n n' (m : M A) :
  (n <= n')%nat -> adds_at_most f n m -> adds_at_most f n' m.
Proof.
  intros Hle Hm s r s' H. apply Hm in H as (l & E & Hl).
  exists l. split; [exact E | lia].
Qed.

(** A computation that leaves the trace alone. *)
Lemma adds_silent {A} (m : M A) :
  (forall s r s', m s = (r, s') -> trace s' = trace s) ->
  adds_at_most f 0 m.
Proof.
  intros Hm s r s' H. exists []. rewrite app_nil_r.
  split; [eapply Hm; eauto | cbn; lia].
Qed.

Lemma adds_ret {A} (a : A) : adds_at_most f 0 (mret a).
Proof. apply adds_silent. intros s r s' [= _ <-]. reflexivity. Qed.

Lemma adds_raise {A} e : adds_at_most f 0 (@raise A e).
Proof. apply adds_silent. intros s r s' [= _ <-]. reflexivity. Qed.

Lemma adds_emit e :
  adds_at_most f (if f e then 1 else 0) (modify (emit e)).
Proof.
  intros s r s' [= _ <-]. exists [e]. split; [reflexivity|].
  unfold count_events. cbn. destruct (f e); cbn; lia.
Qed.
End Adds.

Ltac silent :=
  apply adds_silent; intros ? ? ?; run_monad; intros H;
  repeat case_match; simplify_eq; reflexivity.

Section Probes.
Variable host : Host.
Variable cfg : Config.
Variable f : Event -> bool.

Lemma adds_manual_move coord speed :
  f (ev_manual_move coord speed) = false ->
  adds_at_most f 0 (manual_move host coord speed).
Proof.
  intros Hf. unfold manual_move. change 0%nat with (0 + 0)%nat.
  apply adds_bind; [|intros _].
  - generalize (adds_emit f (ev_manual_move coord speed)). now rewrite Hf.
  - destruct (manual_move_error _ _ _); [apply adds_raise|]. silent.
Qed.

(** [c] bounds what a probing move counts for [f]. *)
Variable c : nat.
Hypothesis Hc : forall axis pos v o,
  ((if f (ev_probing_move axis pos v o) then 1 else 0) <= c)%nat.

Lemma adds_probing_move axis pos v :
  adds_at_most f c (probing_move host axis pos v).
Proof.
  unfold probing_move, mcu_probe.
  intros s r s'. run_monad. intros H.
  repeat case_match; simplify_eq; cbn [trace emit set_toolhead_position];
    first [ exists []; rewrite app_nil_r; split; [reflexivity | cbn; lia]
          | eexists [_]; split; [reflexivity|];
            unfold count_events; cbn;
            match goal with
            | |- context [f (ev_probing_move ?a ?p ?v ?o)] =>
                specialize (Hc a p v o);
                destruct (f (ev_probing_move a p v o)); cbn; lia
            end ].
Qed.

Lemma adds_probe v d : adds_at_most f c (_probe host cfg v d).
Proof.
  unfold _probe. change c with (0 + (0 + (0 + c)))%nat.
  apply adds_bind; [unfold check_homed; silent | intros _].
  apply adds_bind; [unfold lookup_direction; silent | intros [axis sense]].
  apply adds_bind;
    [unfold _get_target_position, lookup_direction, get_position; silent
    | intros pos].
  intros s r s'. unfold try_except.
  destruct (probing_move host axis pos v s) as [[a|e] s1] eqn:E; intros H;
    apply adds_probing_move in E.
  - injection H as <- <-. exact E.
  - destruct (is_command_error e); [|injection H as <- <-; exact E].
    destruct e; try (injection H as <- <-; exact E).
    destruct (contains _ _); injection H as <- <-; exact E.
Qed.

Lemma adds_bounce_loop todo d axis sense lift :
  (forall coord speed, f (ev_manual_move coord speed) = false) ->
  forall start v last,
    adds_at_most f (todo * c)
      (bounce_loop host cfg todo d axis sense lift start v last).
Proof.
  intros Hf. induction todo as [|todo IH]; intros start v last;
    cbn [bounce_loop].
  - apply adds_ret.
  - replace (S todo * c)%nat with (c + (0 + todo * c))%nat by lia.
    apply adds_bind; [apply adds_probe | intros pos].
    apply adds_bind; [apply adds_manual_move, Hf | intros _]. apply IH.
Qed.
End Probes.

Section ProbingMoves.
Variable host : Host.
Variable cfg : Config.

Lemma probes_bouncing_probe v d :
  adds_at_most is_probing_move 3 (_bouncing_probe host cfg v d).
Proof.
  unfold _bouncing_probe.
  change 3%nat with (0 + (0 + (3 + 0)))%nat.
  apply adds_bind; [unfold get_position; silent | intros start].
  apply adds_bind; [unfold lookup_direction; silent | intros [axis sense]].
  apply adds_bind;
    [apply (adds_bounce_loop host cfg is_probing_move 1); reflexivity
    | intros last].
  destruct last as [pos|]; [|apply adds_raise].
  change 0%nat with (0 + 0)%nat.
  apply adds_bind; [apply (adds_emit is_probing_move) | intros _].
  apply adds_ret.
Qed.

Lemma probes_body params d axis sense v :
  adds_at_most is_probing_move 3
    (run_probe_body host cfg params d axis sense v).
Proof.
  unfold run_probe_body.
  change 3%nat with (3 + (0 + (0 + 0)))%nat.
  apply adds_bind; [apply probes_bouncing_probe | intros pos].
  apply adds_bind;
    [unfold check_samples_tolerance; silent | intros [retries positions]].
  apply adds_bind; [|intros start; apply adds_ret].
  unfold retract. destruct (loop_guard _ _); [|apply adds_ret].
  change 0%nat with (0 + 0)%nat.
  apply adds_bind;
    [apply adds_manual_move; reflexivity | intros _; apply adds_ret].
Qed.

Lemma probes_loop params d axis sense fuel : forall v,
  adds_at_most is_probing_move (3 * fuel)
    (run_probe_loop host cfg fuel params d axis sense v).
Proof.
  induction fuel as [|fuel IH]; intros v; cbn [run_probe_loop];
    destruct (loop_guard _ _).
  - apply adds_raise.
  - apply adds_ret.
  - replace (3 * S fuel)%nat with (3 + 3 * fuel)%nat by lia.
    apply adds_bind; [apply probes_body | intros v'; apply IH].
  - eapply adds_weaken; [|apply adds_ret]. lia.
Qed.

(** X7.  One call of [run_probe] makes at most
    3 * (samples_tolerance_retries + 1) * samples probing moves, whether it
    returns or raises. *)
Theorem run_probe_probing_moves_bound (gcmd : GCodeCommand) (d : string)
    (s s' : State) (r : Result unit) (params : Params) :
  get_probe_params cfg gcmd = Ok params ->
  (0 <= samples_tolerance_retries params)%Z ->
  run_probe host cfg gcmd d s = (r, s') ->
  (probing_moves (new_events s s')
   <= 3 * ((Z.to_nat (samples_tolerance_retries params) + 1)
           * Z.to_nat (samples params)))%nat.
Proof.
  intros Hparams Hret H.
  assert (Hb : loop_budget params 0 0
               = ((Z.to_nat (samples_tolerance_retries params) + 1)
                  * Z.to_nat (samples params))%nat).
  { unfold loop_budget. cbn [length]. rewrite !Z.sub_0_r. nia. }
  rewrite <- Hb. clear Hb.
  assert (H0 : forall t, new_events t t = []).
  { intros t. unfold new_events. apply drop_all. }
  unfold run_probe in H. rewrite bind_run in H. cbn [get_state] in H.
  rewrite bind_run in H.
  destruct (negb (multi_probe_pending s));
    [injection H as <- <-; rewrite H0; cbn; lia|].
  cbn [mret M_ret] in H. rewrite bind_run in H. unfold lift at 1 in H.
  rewrite Hparams in H.
  destruct (direction_types !! d) as [[axis sense]|];
    [|injection H as <- <-; rewrite H0; cbn; lia].
  rewrite bind_run, get_position_run, bind_run in H.
  destruct (run_probe_loop _ _ _ _ _ _ _ _ s) as [[positions|e] s1] eqn:E;
    apply probes_loop in E as (l & El & Hl).
  - rewrite bind_run in H. unfold lift at 1 in H.
    destruct (_calculate_results _ _ _); injection H as <- <-;
      unfold new_events; cbn [trace set_results];
      rewrite El, drop_app_length; exact Hl.
  - injection H as <- <-. unfold new_events.
    rewrite El, drop_app_length. exact Hl.
Qed.

(** X18.  A bounce refinement only appends to the trace; it sends
    [probe:update_results] exactly once when it returns, as its last
    event, and not at all when it raises. *)
Theorem bouncing_probe_update_event (v : Q) (d : string) (s s' : State)
    (r : Result Position) :
  _bouncing_probe host cfg v d s = (r, s') ->
  trace s' = trace s ++ new_events s s'
  /\ match r with
     | Ok pos =>
         exists l,
           new_events s s' = l ++ [ev_send_event "probe:update_results" pos]
           /\ count_events is_update_results l = 0%nat
     | Raise _ => count_events is_update_results (new_events s s') = 0%nat
     end.
Proof.
  unfold _bouncing_probe. intros H.
  rewrite bind_run, get_position_run, bind_run in H.
  unfold lookup_direction in H.
  assert (H0 : trace s = trace s ++ new_events s s
               /\ count_events is_update_results (new_events s s) = 0%nat).
  { unfold new_events. rewrite drop_all, app_nil_r. auto. }
  destruct (direction_types !! d) as [[axis sense]|];
    [|injection H as <- <-; exact H0].
  cbn [mret M_ret] in H. rewrite bind_run in H.
  destruct (bounce_loop _ _ _ _ _ _ _ _ _ _ s) as [[last|e] s1] eqn:E;
    apply (adds_bounce_loop host cfg is_update_results 0) in E
      as (l & El & Hl); try reflexivity; try (cbn; lia).
  - destruct last as [pos|].
    + rewrite bind_run in H. unfold send_event in H. cbn [modify] in H.
      injection H as <- <-. unfold new_events. cbn [trace emit].
      rewrite El, <- app_assoc, drop_app_length.
      split; [reflexivity|]. exists l. split; [reflexivity | lia].
    + injection H as <- <-. unfold new_events.
      rewrite El, drop_app_length. split; [reflexivity | lia].
  - injection H as <- <-. unfold new_events.
    rewrite El, drop_app_length. split; [reflexivity | lia].
Qed.
End ProbingMoves.

Lemma run_probe_probing_moves_bound_witness :
  (probing_moves
     (new_events st_active
        (run_probe host0 cfg2 dummy_gcode_cmd "x-" st_active).2)
   <= 3 * ((0 + 1) * 2))%nat.
Proof.
  apply (run_probe_probing_moves_bound host0 cfg2 dummy_gcode_cmd "x-"
           st_active _ (run_probe host0 cfg2 dummy_gcode_cmd "x-"
                          st_active).1 params2).
  - vm_compute. reflexivity.
  - vm_compute. discriminate.
  - apply surjective_pairing.
Defined.

Lemma bouncing_probe_update_event_witness :
  count_events is_update_results
    (new_events st0 (_bouncing_probe host_timeout cfg0 5 "x-" st0).2)
  = 0%nat.
Proof.
  exact (proj2 (bouncing_probe_update_event host_timeout cfg0 5 "x-" st0
                  (_bouncing_probe host_timeout cfg0 5 "x-" st0).2
                  (Raise (command_error
                            ("Timeout during endstop homing"
                             +:+ HINT_TIMEOUT)))
                  ltac:(vm_compute; reflexivity))).
Defined.

(** ** The statistics do not depend on the order of the samples *)






Section CountLe.
Context {A : Type} (key : A -> Q).

Lemma count_le_perm v l l' :
  Permutation l l' -> count_le key v l = count_le key v l'.
Proof.
  unfold count_le.
  induction 1 as [|x l l' _ IH|x y l|l l' l'' _ IH1 _ IH2]; cbn.
  - reflexivity.
  - destruct (Qle_bool (key x) v); cbn; now rewrite IH.
  - destruct (Qle_bool (key x) v), (Qle_bool (key y) v); reflexivity.
  - now rewrite IH1.
Qed.

Lemma count_le_cons v x l :
  count_le key v (x :: l)
  = ((if Qle_bool (key x) v then 1 else 0) + count_le key v l)%nat.
Proof. unfold count_le. cbn. destruct (Qle_bool (key x) v); reflexivity. Qed.

(** In a sorted list the element at index [i] and all before it have a
    key at most the key at [i]. *)
Lemma sorted_count_ge l : forall i a,
  StronglySorted (key_le key) l -> l !! i = Some a ->
  (i + 1 <= count_le key (key a) l)%nat.
Proof.
  induction l as [|x l IH]; intros i a Hs Hi; [discriminate|].
  inversion Hs as [|? ? Hs' Hall]; subst. rewrite count_le_cons.
  destruct i as [|i]; cbn in Hi.
  - injection Hi as ->.
    assert (E : Qle_bool (key a) (key a) = true)
      by (apply Qle_bool_iff, Qle_refl).
    rewrite E. lia.
  - assert (E : Qle_bool (key x) (key a) = true).
    { apply Qle_bool_iff. rewrite List.Forall_forall in Hall.
      apply Hall. apply list_elem_of_In. eapply list_elem_of_lookup_2; eauto. }
    rewrite E. specialize (IH i a Hs' Hi). lia.
Qed.

(** In a sorted list only elements before index [i] can have a key below
    the key at [i]. *)
Lemma sorted_count_le l : forall i a v,
  StronglySorted (key_le key) l -> l !! i = Some a -> (v < key a)%Q ->
  (count_le key v l <= i)%nat.
Proof.
  induction l as [|x l IH]; intros i a v Hs Hi Hv; [discriminate|].
  inversion Hs as [|? ? Hs' Hall]; subst. rewrite count_le_cons.
  destruct i as [|i]; cbn in Hi.
  - injection Hi as ->.
    assert (E : Qle_bool (key a) v = false).
    { apply not_true_is_false. intros E. apply Qle_bool_iff in E.
      now apply Qlt_not_le in Hv. }
    rewrite E.
    assert (H0 : count_le key v l = 0%nat).
    { unfold count_le. clear IH Hs Hs'.
      induction l as [|y l IHl]; [reflexivity|].
      inversion Hall as [|? ? Hy Hall']; subst. cbn.
      assert (Ey : Qle_bool (key y) v = false).
      { apply not_true_is_false. intros Ey. apply Qle_bool_iff in Ey.
        unfold key_le in Hy.
        apply (Qlt_not_le _ _ Hv). now apply Qle_trans with (key y). }
      rewrite Ey. now apply IHl. }
    lia.
  - specialize (IH i a v Hs' Hi Hv).
    destruct (Qle_bool (key x) v); lia.
Qed.

(** Sorted rearrangements of the same elements have equal keys at every
    index. *)
Lemma sorted_perm_keys l l' i a b :
  Permutation l l' ->
  StronglySorted (key_le key) l -> StronglySorted (key_le key) l' ->
  l !! i = Some a -> l' !! i = Some b ->
  (key a == key b)%Q.
Proof.
  intros Hp Hs Hs' Ha Hb.
  destruct (Q_dec (key a) (key b)) as [[Hlt|Hgt]|Heq]; [| |exact Heq];
    exfalso.
  - pose proof (sorted_count_ge l i a Hs Ha).
    pose proof (sorted_count_le l' i b (key a) Hs' Hb Hlt).
    rewrite (count_le_perm _ _ _ Hp) in H. lia.
  - pose proof (sorted_count_ge l' i b Hs' Hb).
    pose proof (sorted_count_le l i a (key b) Hs Ha Hgt).
    rewrite (count_le_perm _ _ _ Hp) in H0. lia.
Qed.
End CountLe.

(** What [_calc_median] returns on a non-empty list. *)
Lemma calc_median_middle (positions : list Position) (axis : Axis) :
  positions <> [] ->
  let axis_sorted := sorted (fun p => get_axis p axis) positions in
  let middle := (length positions / 2)%nat in
  if Nat.odd (length positions)
  then exists p,
         axis_sorted !! middle = Some p
         /\ _calc_median positions axis = Ok p
  else exists a b m,
         axis_sorted !! (middle - 1)%nat = Some a
         /\ axis_sorted !! middle = Some b
         /\ _calc_median positions axis = Ok m
         /\ Position_eq m (midpoint a b).
Proof.
  intros Hne axis_sorted middle.
  assert (Hlen : length axis_sorted = length positions) by apply sorted_length.
  assert (Hpos : (0 < length positions)%nat)
    by (destruct positions; [congruence | simpl; lia]).
  assert (Hmid : Z.to_nat (Z.of_nat (length positions) / 2) = middle).
  { unfold middle. rewrite <- (Nat2Z.id (length positions / 2)).
    f_equal. now rewrite Nat2Z.inj_div. }
  unfold _calc_median. rewrite land_one_odd.
  fold axis_sorted. rewrite Hmid.
  destruct (Nat.odd (length positions)) eqn:Hodd.
  - destruct (lookup_lt_is_Some_2 axis_sorted middle) as [p Hp].
    { rewrite Hlen. unfold middle. apply Nat.div_lt; lia. }
    exists p. now rewrite Hp.
  - assert (Heven : Nat.even (length positions) = true)
      by (rewrite <- Nat.negb_odd, Hodd; reflexivity).
    apply Nat.even_spec in Heven as [h Hh].
    assert (Hm : middle = h)
      by (unfold middle; rewrite Hh, Nat.mul_comm; apply Nat.div_mul; lia).
    destruct h as [|h]; [lia|].
    destruct (lookup_lt_is_Some_2 axis_sorted h) as [a Ha]; [lia|].
    destruct (lookup_lt_is_Some_2 axis_sorted (S h)) as [b Hb]; [lia|].
    destruct (calc_mean_two a b) as (m & Hmean & Heq).
    exists a, b, m. rewrite Hm.
    replace (S h - 1)%nat with h by lia.
    repeat split; try assumption; try apply Heq.
    replace (Z.of_nat (length positions) / 2)%Z with (Z.of_nat (S h)).
    + now rewrite (py_slice_two _ _ _ _ Ha Hb).
    + rewrite Hh. rewrite Nat2Z.inj_mul. change (Z.of_nat 2) with 2%Z.
      rewrite Z.mul_comm, Z.div_mul; lia.
Qed.

Lemma Position_eq_axis p q axis :
  Position_eq p q -> (get_axis p axis == get_axis q axis)%Q.
Proof. intros (Hx & Hy & Hz). destruct axis; assumption. Qed.

Lemma midpoint_axis a b axis :
  (get_axis (midpoint a b) axis == (get_axis a axis + get_axis b axis) / 2)%Q.
Proof. destruct axis; reflexivity. Qed.

(** X9.  The coordinate of the median on the axis it was sorted on is the
    same for every rearrangement of a non-empty list of samples; with
    equal axis values the other coordinates may differ, the stable sort
    keeping the order of arrival. *)
Theorem calc_median_permutation (positions positions' : list Position)
    (axis : Axis) :
  positions <> [] ->
  Permutation positions positions' ->
  exists m m',
    _calc_median positions axis = Ok m
    /\ _calc_median positions' axis = Ok m'
    /\ (get_axis m axis == get_axis m' axis)%Q.
Proof.
  intros Hne Hp.
  assert (Hne' : positions' <> [])
    by (intros ->; apply Permutation_sym, Permutation_nil in Hp; congruence).
  pose proof (calc_median_middle positions axis Hne) as H.
  pose proof (calc_median_middle positions' axis Hne') as H'.
  cbv zeta in H, H'. rewrite <- (Permutation_length Hp) in H'.
  set (key := fun p => get_axis p axis) in *.
  assert (Hps : Permutation (sorted key positions) (sorted key positions')).
  { rewrite <- (sorted_perm key positions), <- (sorted_perm key positions').
    exact Hp. }
  pose proof (sorted_sorted key positions) as Hs.
  pose proof (sorted_sorted key positions') as Hs'.
  destruct (Nat.odd (length positions)).
  - destruct H as (p & Hi & Hm). destruct H' as (p' & Hi' & Hm').
    exists p, p'. split; [exact Hm|]. split; [exact Hm'|].
    exact (sorted_perm_keys key _ _ _ _ _ Hps Hs Hs' Hi Hi').
  - destruct H as (a & b & m & Ha & Hb & Hm & He).
    destruct H' as (a' & b' & m' & Ha' & Hb' & Hm' & He').
    exists m, m'. split; [exact Hm|]. split; [exact Hm'|].
    rewrite (Position_eq_axis _ _ axis He), (Position_eq_axis _ _ axis He').
    rewrite !midpoint_axis.
    pose proof (sorted_perm_keys key _ _ _ _ _ Hps Hs Hs' Ha Ha') as Ea.
    pose proof (sorted_perm_keys key _ _ _ _ _ Hps Hs Hs' Hb Hb') as Eb.
    unfold key in Ea, Eb. rewrite Ea, Eb. reflexivity.
Qed.

Lemma calc_median_permutation_witness :
  exists m m',
    _calc_median [mkPos 1 0 1; mkPos 2 0 3; mkPos 3 0 2] Axis2 = Ok m
    /\ _calc_median [mkPos 2 0 3; mkPos 1 0 1; mkPos 3 0 2] Axis2 = Ok m'
    /\ (get_axis m Axis2 == get_axis m' Axis2)%Q.
Proof.
  apply (calc_median_permutation [mkPos 1 0 1; mkPos 2 0 3; mkPos 3 0 2]
           [mkPos 2 0 3; mkPos 1 0 1; mkPos 3 0 2] Axis2).
  - discriminate.
  - apply perm_swap.
Defined.

(** ** Beginning and ending a session *)

Section BeginEnd.
Variable host : Host.

Lemma mcu_probe_run axis s w :
  mcu_probes s !! axis_index axis = Some w -> mcu_probe axis s = (Ok w, s).
Proof.
  intros Hw. unfold mcu_probe. rewrite bind_run. cbn [get_state].
  now rewrite Hw.
Qed.

Lemma set_multi_run axis m s w :
  mcu_probes s !! axis_index axis = Some w ->
  set_multi axis m s
  = (Ok tt,
     set_mcu_probes
       (<[axis_index axis := mkWrapper (stow_on_each_sample w) m]>
          (mcu_probes s)) s).
Proof.
  intros Hw. unfold set_multi. rewrite bind_run, (mcu_probe_run _ _ _ Hw).
  reflexivity.
Qed.

Lemma start_probe_session_run d axis sense s w :
  multi_probe_pending s = false ->
  direction_types !! d = Some (axis, sense) ->
  mcu_probes s !! axis_index axis = Some w ->
  start_probe_session d s
  = (Ok tt,
     set_results []
       (set_multi_probe_pending true
          (if stow_on_each_sample w then s
           else set_mcu_probes
                  (<[axis_index axis := mkWrapper false FIRST]>
                     (mcu_probes s)) s))).
Proof.
  intros Hp Hd Hw. unfold start_probe_session.
  rewrite bind_run. cbn [get_state]. rewrite bind_run, Hp.
  cbn [mret M_ret]. rewrite bind_run. unfold lookup_direction.
  rewrite Hd. cbn [mret M_ret]. rewrite bind_run.
  unfold multi_probe_begin. rewrite bind_run, (mcu_probe_run _ _ _ Hw).
  destruct (stow_on_each_sample w) eqn:Hstow.
  - reflexivity.
  - rewrite (set_multi_run _ _ _ _ Hw), Hstow. reflexivity.
Qed.

Lemma end_probe_session_run d axis sense s :
  multi_probe_pending s = true ->
  direction_types !! d = Some (axis, sense) ->
  end_probe_session host d s
  = multi_probe_end host axis
      (set_multi_probe_pending false (set_results [] s)).
Proof.
  intros Hp Hd. unfold end_probe_session.
  rewrite bind_run. cbn [get_state]. rewrite bind_run, Hp.
  cbn [negb mret M_ret]. rewrite bind_run. unfold lookup_direction.
  rewrite Hd. cbn [mret M_ret]. rewrite bind_run. cbn [modify].
  rewrite bind_run. cbn [modify]. reflexivity.
Qed.

(** The state after the deactivate script. *)
Lemma raise_probe_run s :
  _raise_probe host s
  = (if Position_eqb (deactivate_gcode host (toolhead_position s))
                     (toolhead_position s)
     then Ok tt
     else Raise (command_error
                   "Toolhead moved during probe deactivate_gcode script"),
     set_toolhead_position (deactivate_gcode host (toolhead_position s))
       (emit ev_deactivate_gcode s)).
Proof.
  unfold _raise_probe. rewrite bind_run, get_position_run.
  rewrite bind_run. cbn [modify]. rewrite bind_run. cbn [modify].
  rewrite bind_run, get_position_run.
  cbn [toolhead_position set_toolhead_position emit].
  destruct (Position_eqb _ _); reflexivity.
Qed.

Lemma multi_probe_end_run axis s w :
  mcu_probes s !! axis_index axis = Some w ->
  multi_probe_end host axis s
  = if stow_on_each_sample w then (Ok tt, s)
    else if Position_eqb (deactivate_gcode host (toolhead_position s))
                         (toolhead_position s)
         then (Ok tt,
               set_mcu_probes
                 (<[axis_index axis := mkWrapper false OFF]> (mcu_probes s))
                 (set_toolhead_position
                    (deactivate_gcode host (toolhead_position s))
                    (emit ev_deactivate_gcode s)))
         else (Raise (command_error
                        "Toolhead moved during probe deactivate_gcode script"),
               set_toolhead_position
                 (deactivate_gcode host (toolhead_position s))
                 (emit ev_deactivate_gcode s)).
Proof.
  intros Hw. unfold multi_probe_end.
  rewrite bind_run, (mcu_probe_run _ _ _ Hw).
  destruct (stow_on_each_sample w) eqn:Hstow; [reflexivity|].
  rewrite bind_run, raise_probe_run.
  destruct (Position_eqb _ _); [|reflexivity].
  rewrite (set_multi_run _ _ _ w) by exact Hw. now rewrite Hstow.
Qed.

(** X10.  A session begun on an idle helper whose wrapper is out of
    multi-probe mode, and ended with the same direction, gives back the
    wrappers as they were, with the session idle and the buffer empty,
    provided the deactivate script leaves the toolhead where it was.  With
    [stow_on_each_sample] nothing but the buffer has changed; without it
    the deactivate script has run once. *)
Theorem begin_end_round_trip (d : string) (axis : Axis) (sense : Z)
    (s : State) (w : ProbeEndstopWrapper) :
  multi_probe_pending s = false ->
  direction_types !! d = Some (axis, sense) ->
  mcu_probes s !! axis_index axis = Some w ->
  multi w = OFF ->
  Position_eqb (deactivate_gcode host (toolhead_position s))
               (toolhead_position s) = true ->
  exists s1 s2,
    start_probe_session d s = (Ok tt, s1)
    /\ multi_probe_pending s1 = true
    /\ end_probe_session host d s1 = (Ok tt, s2)
    /\ multi_probe_pending s2 = false
    /\ results s2 = []
    /\ mcu_probes s2 = mcu_probes s
    /\ new_events s s2
       = (if stow_on_each_sample w then [] else [ev_deactivate_gcode]).
Proof.
  intros Hp Hd Hw Hoff Hmove.
  rewrite (start_probe_session_run _ _ _ _ _ Hp Hd Hw).
  destruct w as [stow m]. cbn in Hoff. subst m.
  destruct stow; cbn [stow_on_each_sample].
  - eexists _, _. split; [reflexivity|]. split; [reflexivity|].
    rewrite (end_probe_session_run d axis sense) by (try reflexivity; exact Hd).
    rewrite (multi_probe_end_run axis _ (mkWrapper true OFF)) by exact Hw.
    cbn [stow_on_each_sample]. split; [reflexivity|]. repeat split.
    unfold new_events. cbn. now rewrite drop_all.
  - assert (Hlen : (axis_index axis < length (mcu_probes s))%nat)
      by (eapply lookup_lt_Some; eauto).
    eexists _, _. split; [reflexivity|]. split; [reflexivity|].
    rewrite (end_probe_session_run d axis sense) by (try reflexivity; exact Hd).
    rewrite (multi_probe_end_run axis _ (mkWrapper false FIRST))
      by (cbn; now apply list_lookup_insert_eq).
    cbn [stow_on_each_sample toolhead_position set_results
         set_multi_probe_pending set_mcu_probes].
    rewrite Hmove. split; [reflexivity|]. cbn. repeat split.
    + rewrite list_insert_insert_eq. now apply list_insert_id.
    + unfold new_events. cbn. now rewrite drop_app_length.
Qed.

(** X11.  Without [stow_on_each_sample], when the deactivate script moves
    the toolhead, ending an active session raises "Toolhead moved during
    probe deactivate_gcode script"; the session is idle and its buffer
    empty all the same, but the wrapper is left in the mode it was in. *)
Theorem end_probe_session_script_moves (d : string) (axis : Axis)
    (sense : Z) (s : State) (w : ProbeEndstopWrapper) :
  multi_probe_pending s = true ->
  direction_types !! d = Some (axis, sense) ->
  mcu_probes s !! axis_index axis = Some w ->
  stow_on_each_sample w = false ->
  Position_eqb (deactivate_gcode host (toolhead_position s))
               (toolhead_position s) = false ->
  exists s',
    end_probe_session host d s
    = (Raise (command_error
                "Toolhead moved during probe deactivate_gcode script"), s')
    /\ multi_probe_pending s' = false
    /\ results s' = []
    /\ mcu_probes s' = mcu_probes s.
Proof.
  intros Hp Hd Hw Hstow Hmove.
  rewrite (end_probe_session_run d axis sense s Hp Hd).
  rewrite (multi_probe_end_run axis _ w) by exact Hw.
  rewrite Hstow. cbn [toolhead_position set_results set_multi_probe_pending].
  rewrite Hmove. eexists. split; [reflexivity|]. repeat split.
Qed.
End BeginEnd.

Lemma begin_end_round_trip_witness :
  exists s1 s2,
    start_probe_session "y+" st0 = (Ok tt, s1)
    /\ multi_probe_pending s1 = true
    /\ end_probe_session host0 "y+" s1 = (Ok tt, s2)
    /\ multi_probe_pending s2 = false
    /\ results s2 = []
    /\ mcu_probes s2 = mcu_probes st0
    /\ new_events st0 s2 = [ev_deactivate_gcode].
Proof.
  apply (begin_end_round_trip host0 "y+" Axis1 1 st0 (mkWrapper false OFF));
    vm_compute; reflexivity.
Defined.

Lemma end_probe_session_script_moves_witness :
  exists s',
    end_probe_session host_moving "z-" st_active
    = (Raise (command_error
                "Toolhead moved during probe deactivate_gcode script"), s')
    /\ multi_probe_pending s' = false
    /\ results s' = []
    /\ mcu_probes s' = mcu_probes st_active.
Proof.
  apply (end_probe_session_script_moves host_moving "z-" Axis2 (-1)
           st_active (mkWrapper false OFF));
    vm_compute; reflexivity.
Defined.

(** ** The commands built on a session *)

Section Commands.
Variable host : Host.
Variable cfg : Config.

Lemma start_probe_session_ok d u s s' :
  start_probe_session d s = (Ok u, s') ->
  multi_probe_pending s = false
  /\ multi_probe_pending s' = true /\ results s' = [].
Proof.
  unfold start_probe_session, lookup_direction, multi_probe_begin,
    set_multi, mcu_probe.
  run_monad. intros H. repeat case_match; simplify_eq; auto.
Qed.

Lemma manual_move_frame coord speed r s s' :
  manual_move host coord speed s = (r, s') -> frame s s'.
Proof. intros H. now apply motion_only_manual_move in H as [F _]. Qed.

(** The loop of [cmd_PROBE_ACCURACY] appends one result per round. *)
Lemma accuracy_loop_ok todo params fo d axis sense : forall s u s',
  accuracy_loop host cfg todo params fo d axis sense s = (Ok u, s') ->
  exists rs,
    length rs = todo
    /\ results s' = results s ++ rs
    /\ multi_probe_pending s' = multi_probe_pending s.
Proof.
  induction todo as [|todo IH]; intros s u s' H; cbn [accuracy_loop] in H.
  - injection H as _ <-. exists []. rewrite app_nil_r. auto.
  - inv_bind H. destruct a. apply run_probe_ok in Hm as (r & Hr & Hp).
    inv_bind H. apply get_position_ok in Hm as [-> ->].
    inv_bind H. apply manual_move_frame in Hm as (Fp & Fr & _).
    apply IH in H as (rs & Hlen & Hrs & Hps).
    exists (r :: rs). cbn [length]. split; [lia|]. split.
    + rewrite Hrs, Fr, Hr, <- app_assoc. reflexivity.
    + congruence.
Qed.

(** X12.  [cmd_PROBE_ACCURACY] produces a report only for three samples or
    more: its message indexes the first three results, so with SAMPLES=1
    or SAMPLES=2 it never returns.  When it does return, the session is
    idle again and the buffer empty. *)
Theorem probe_accuracy_needs_three (gcmd : GCodeCommand) (s s' : State)
    (report : AccuracyReport) :
  cmd_PROBE_ACCURACY host cfg gcmd s = (Ok report, s') ->
  (forall n, SAMPLES gcmd = Some n -> (3 <= n)%Z)
  /\ multi_probe_pending s' = false
  /\ results s' = [].
Proof.
  unfold cmd_PROBE_ACCURACY. intros H.
  inv_bind H. inv_bind H. destruct a0 as [axis sense].
  apply lookup_direction_ok in Hm0 as [Hd ->].
  inv_bind H. injection Hm0 as Hcount <-.
  inv_bind H. apply start_probe_session_ok in Hm0 as (_ & Hp1 & Hr1).
  inv_bind H. apply accuracy_loop_ok in Hm0 as (rs & Hlen & Hrs & Hp2).
  rewrite Hr1 in Hrs. cbn [app] in Hrs.
  inv_bind H. injection Hm0 as <- <-. rewrite Hrs in H.
  inv_bind H.
  destruct (Nat.ltb_spec (length rs) 3) as [Hlt|Hge]; [discriminate|].
  injection Hm0 as _ <-.
  inv_bind H.
  eapply end_probe_session_idle in Hm0 as (Hidle & Hempty & _);
    [|cbn; congruence|exact Hd].
  injection H as _ <-.
  split; [|auto].
  intros n Hn. rewrite Hn in Hcount. apply get_int_minval_ok in Hcount.
  destruct Hcount as [[? _]|[Ha _]]; [discriminate|].
  injection Ha as <-. lia.
Qed.


(** X14.  When the [run_probe] inside [run_single_probe] raises, the
    helper passes the error on with the session still active: a second
    [run_single_probe] then fails with the session state error, until the
    handler of command errors has ended the session. *)
Theorem run_single_probe_error_leaves_session (gcmd : GCodeCommand)
    (d : string) (s s0 s1 : State) (e : Error) :
  start_probe_session "z-" s = (Ok tt, s0) ->
  run_probe host cfg gcmd d s0 = (Raise e, s1) ->
  run_single_probe host cfg gcmd d s = (Raise e, s1)
  /\ multi_probe_pending s1 = true
  /\ (forall gcmd' d',
        run_single_probe host cfg gcmd' d' s1
        = (Raise SessionStateError, s1))
  /\ exists s2,
       _handle_command_error host s1 = (Ok tt, s2)
       /\ multi_probe_pending s2 = false
       /\ results s2 = [].
Proof.
  intros Hstart Hrun.
  pose proof (start_probe_session_ok _ _ _ _ Hstart) as (_ & Hp0 & _).
  apply run_probe_raise in Hrun as Hf. destruct Hf as [(Fp & _ & _) _].
  assert (Hp1 : multi_probe_pending s1 = true) by congruence.
  split; [|split; [exact Hp1|split]].
  - unfold run_single_probe. rewrite bind_run, Hstart, bind_run, Hrun.
    reflexivity.
  - intros gcmd' d'. unfold run_single_probe. rewrite bind_run.
    unfold start_probe_session. rewrite bind_run. cbn [get_state].
    rewrite bind_run, Hp1. reflexivity.
  - unfold _handle_command_error. rewrite bind_run. cbn [get_state].
    rewrite Hp1. unfold try_except.
    destruct (end_probe_session host "z-" s1) as [[[]|e'] s2] eqn:He;
      destruct (end_probe_session_idle _ _ _ _ _ _ _ Hp1 lookup_z_minus He)
        as (Hi & Hr & _); eauto.
Qed.
End Commands.

Lemma probe_accuracy_needs_three_witness :
  (forall n, SAMPLES accuracy_x = Some n -> (3 <= n)%Z)
  /\ multi_probe_pending (cmd_PROBE_ACCURACY host0 cfg0 accuracy_x st0).2
     = false
  /\ results (cmd_PROBE_ACCURACY host0 cfg0 accuracy_x st0).2 = [].
Proof.
  eapply (probe_accuracy_needs_three host0 cfg0 accuracy_x st0).
  vm_compute. reflexivity.
Defined.


Lemma run_single_probe_error_leaves_session_witness :
  exists s1,
    run_single_probe host_unhomed cfg0 dummy_gcode_cmd "x+" st0
    = (Raise (command_error "Must home before probe"), s1)
    /\ multi_probe_pending s1 = true.
Proof.
  eexists.
  assert (H := run_single_probe_error_leaves_session host_unhomed cfg0
                 dummy_gcode_cmd "x+" st0 _ _ _
                 ltac:(vm_compute; reflexivity)
                 ltac:(vm_compute; reflexivity)).
  split; [exact (proj1 H) | exact (proj1 (proj2 H))].
Defined.

(** ** [run_probe] on a cooperative machine *)

Section CooperativeRun.
Variable host : Host.
Variable cfg : Config.
Hypothesis Hcoop : cooperative host.

Lemma manual_move_cooperative coord speed s :
  manual_move host coord speed s
  = (Ok tt, set_toolhead_position coord (emit (ev_manual_move coord speed) s)).
Proof.
  destruct Hcoop as (_ & _ & _ & _ & _ & _ & Hmove).
  unfold manual_move. rewrite bind_run. cbn [modify]. now rewrite Hmove.
Qed.

Lemma body_cooperative params d axis sense v s r s' :
  direction_types !! d = Some (axis, sense) ->
  is_Some (mcu_probes s !! axis_index axis) ->
  run_probe_body host cfg params d axis sense v s = (r, s') ->
  (exists v', r = Ok v') \/ r = Raise ToleranceExceeded.
Proof.
  intros Hd Hw H.
  destruct (bouncing_probe_returns host cfg Hcoop (probe_speed params) d
              axis sense s Hd Hw) as (pos & s1 & Hpos).
  unfold run_probe_body in H.
  rewrite bind_run, Hpos, bind_run, check_samples_tolerance_run in H.
  destruct (spread_snoc axis (lv_positions v) pos) as [sp Hsp].
  rewrite Hsp in H.
  assert (Hret : forall ps t r0 t',
            (retract host params axis sense (lv_start_position v) pos ps
             ≫= λ start, mret (mkLoop start t ps)) s1 = (r0, t') ->
            exists v', r0 = Ok v').
  { intros ps t r0 t'. unfold retract. rewrite bind_run.
    destruct (loop_guard params ps).
    - rewrite bind_run, manual_move_cooperative. intros [= <- _]. eauto.
    - intros [= <- _]. eauto. }
  destruct (Qltb _ sp).
  - destruct (_ <=? _)%Z.
    + injection H as <- _. now right.
    + left. exact (Hret _ _ _ _ H).
  - left. exact (Hret _ _ _ _ H).
Qed.

Lemma loop_cooperative params d axis sense fuel : forall v s r s',
  direction_types !! d = Some (axis, sense) ->
  is_Some (mcu_probes s !! axis_index axis) ->
  run_probe_loop host cfg fuel params d axis sense v s = (r, s') ->
  (exists positions, r = Ok positions)
  \/ r = Raise ToleranceExceeded \/ r = Raise fuel_exhausted.
Proof.
  induction fuel as [|fuel IH]; intros v s r s' Hd Hw H;
    cbn [run_probe_loop] in H; destruct (loop_guard params (lv_positions v)).
  - injection H as <- _. auto.
  - injection H as <- _. eauto.
  - rewrite bind_run in H.
    destruct (run_probe_body _ _ _ _ _ _ v s) as [[v1|e] s1] eqn:Hbody.
    + apply (IH v1 s1 r s'); [exact Hd| |exact H].
      destruct (motion_only_body _ _ _ _ _ _ _ _ _ _ Hbody) as [(_ & _ & F) _].
      now rewrite F.
    + injection H as <- _.
      destruct (body_cooperative _ _ _ _ _ _ _ _ Hd Hw Hbody) as [[v' ?]|He];
        [discriminate | injection He as ->; auto].
  - injection H as <- _. eauto.
Qed.

Lemma calculate_results_nonempty positions method axis :
  positions <> [] ->
  exists r, _calculate_results positions method axis = Ok r.
Proof.
  intros Hne. unfold _calculate_results.
  destruct (String.eqb method "median").
  - pose proof (calc_median_middle positions axis Hne) as H. cbv zeta in H.
    destruct (Nat.odd _);
      [destruct H as (p & _ & ->) | destruct H as (a & b & m & _ & _ & -> & _)];
      eauto.
  - unfold _calc_mean. destruct positions as [|p l]; [congruence|].
    eexists. reflexivity.
Qed.

(** X15.  On a homed cartesian machine whose probe always finds a contact
    and whose toolhead accepts every move, an active session asked for at
    least one sample in a known direction either appends one result, or
    raises "Probe samples exceed samples_tolerance" with the buffer as it
    was; no other error comes out of [run_probe]. *)
Theorem run_probe_cooperative (gcmd : GCodeCommand) (d : string)
    (axis : Axis) (sense : Z) (s : State) (params : Params) :
  multi_probe_pending s = true ->
  get_probe_params cfg gcmd = Ok params ->
  (1 <= samples params)%Z ->
  direction_types !! d = Some (axis, sense) ->
  is_Some (mcu_probes s !! axis_index axis) ->
  exists s',
    (run_probe host cfg gcmd d s = (Ok tt, s')
     /\ exists r, results s' = results s ++ [r])
    \/ (run_probe host cfg gcmd d s = (Raise ToleranceExceeded, s')
        /\ results s' = results s).
Proof.
  intros Hp Hparams Hs Hd Hw.
  destruct (run_probe host cfg gcmd d s) as [[[]|e] s'] eqn:Hrun.
  - exists s'. left. split; [reflexivity|].
    apply run_probe_ok in Hrun as (r & Hr & _). eauto.
  - exists s'. right.
    pose proof (run_probe_raise _ _ _ _ _ _ _ Hrun) as [(_ & Fr & _) Hfuel].
    split; [|exact Fr]. f_equal. f_equal.
    unfold run_probe in Hrun. rewrite bind_run in Hrun.
    cbn [get_state] in Hrun. rewrite bind_run, Hp in Hrun.
    cbn [negb mret M_ret] in Hrun. rewrite bind_run in Hrun.
    unfold lift at 1 in Hrun. rewrite Hparams, Hd in Hrun.
    rewrite bind_run, get_position_run, bind_run in Hrun.
    destruct (run_probe_loop _ _ _ _ _ _ _ _ s) as [[positions|e1] s1] eqn:Hloop.
    + exfalso.
      apply run_probe_loop_ok in Hloop as (v & Hreach & Hv & Hg).
      unfold loop_guard in Hg. apply Z.ltb_ge in Hg.
      destruct (calculate_results_nonempty positions (samples_result params)
                  axis) as [r Hr].
      { intros ->. cbn in Hg. lia. }
      rewrite bind_run in Hrun. unfold lift at 1 in Hrun.
      rewrite Hr in Hrun. discriminate.
    + injection Hrun as <- _.
      destruct (loop_cooperative _ _ _ _ _ _ _ _ _ Hd Hw Hloop)
        as [[positions ?]|[?|?]]; [discriminate | congruence | congruence].
Qed.
End CooperativeRun.

Lemma host0_cooperative : cooperative host0.
Proof.
  repeat split; try (vm_compute; reflexivity); try (eexists; reflexivity).
Qed.

Lemma run_probe_cooperative_witness :
  exists s',
    (run_probe host0 cfg2 dummy_gcode_cmd "x-" st_active = (Ok tt, s')
     /\ exists r, results s' = results st_active ++ [r])
    \/ (run_probe host0 cfg2 dummy_gcode_cmd "x-" st_active
        = (Raise ToleranceExceeded, s')
        /\ results s' = results st_active).
Proof.
  apply (run_probe_cooperative host0 cfg2 host0_cooperative dummy_gcode_cmd
           "x-" Axis0 (-1) st_active params2).
  - reflexivity.
  - vm_compute. reflexivity.
  - vm_compute. discriminate.
  - vm_compute. reflexivity.
  - eexists. vm_compute. reflexivity.
Defined.

(** ** The aggregate lies among the samples *)











(** ** The probe is stowed once per session, or once per move *)

Section WrapperFacts.
Variable host : Host.
Variable activate_gcode : Position -> Position.
Hypothesis Hdeact : keeps_toolhead (deactivate_gcode host).
Hypothesis Hact : keeps_toolhead activate_gcode.

Lemma lower_probe_run s :
  _lower_probe activate_gcode s
  = (Ok tt, set_toolhead_position (activate_gcode (toolhead_position s)) s).
Proof.
  unfold _lower_probe. rewrite bind_run, get_position_run.
  rewrite bind_run. cbn [modify]. rewrite bind_run, get_position_run.
  cbn [toolhead_position set_toolhead_position]. now rewrite Hact.
Qed.

Lemma raise_probe_static s :
  _raise_probe host s
  = (Ok tt,
     set_toolhead_position (deactivate_gcode host (toolhead_position s))
       (emit ev_deactivate_gcode s)).
Proof. rewrite raise_probe_run. now rewrite Hdeact. Qed.

(** Outside multi-probe mode every cycle lowers and raises the probe. *)
Lemma probe_cycles_off axis stow n : forall s,
  mcu_probes s !! axis_index axis = Some (mkWrapper stow OFF) ->
  exists s',
    probe_cycles host activate_gcode n axis s = (Ok tt, s')
    /\ frame s s'
    /\ trace s' = trace s ++ repeat ev_deactivate_gcode n.
Proof.
  induction n as [|n IH]; intros s Hw; cbn [probe_cycles].
  - exists s. cbn [repeat]. rewrite app_nil_r.
    split; [reflexivity|]. split; [apply frame_refl | reflexivity].
  - unfold probe_prepare at 1.
    rewrite bind_run, bind_run, (mcu_probe_run _ _ _ Hw).
    cbn [multi]. rewrite lower_probe_run.
    unfold probe_finish at 1.
    rewrite bind_run, bind_run, (mcu_probe_run _ _ (mkWrapper stow OFF))
      by exact Hw.
    cbn [multi]. rewrite raise_probe_static.
    match goal with
    | |- context [probe_cycles _ _ _ _ ?st] =>
        destruct (IH st) as (s' & Hrun & (Fp & Fr & Fm) & Htr)
    end; [exact Hw | rewrite Hrun].
    exists s'. split; [reflexivity|]. split; [repeat split; assumption|].
    rewrite Htr. cbn [trace emit set_toolhead_position repeat].
    now rewrite <- app_assoc.
Qed.

(** In multi-probe mode the first cycle lowers the probe and no cycle
    raises it. *)
Lemma probe_cycles_multi axis n : forall s m,
  m <> OFF ->
  mcu_probes s !! axis_index axis = Some (mkWrapper false m) ->
  exists s' m',
    probe_cycles host activate_gcode n axis s = (Ok tt, s')
    /\ m' <> OFF
    /\ mcu_probes s'
       = <[axis_index axis := mkWrapper false m']> (mcu_probes s)
    /\ multi_probe_pending s' = multi_probe_pending s
    /\ results s' = results s
    /\ trace s' = trace s.
Proof.
  induction n as [|n IH]; intros s m Hm Hw; cbn [probe_cycles].
  - exists s, m. split; [reflexivity|]. split; [exact Hm|].
    split; [|auto]. symmetry. now apply list_insert_id.
  - assert (Hlen : (axis_index axis < length (mcu_probes s))%nat)
      by (eapply lookup_lt_Some; eauto).
    unfold probe_prepare at 1.
    rewrite bind_run, bind_run, (mcu_probe_run _ _ _ Hw). cbn [multi].
    destruct m; [congruence| |].
    + rewrite bind_run, lower_probe_run.
      rewrite (set_multi_run _ _ _ (mkWrapper false FIRST)) by exact Hw.
      cbn [stow_on_each_sample].
      unfold probe_finish at 1.
      rewrite bind_run, bind_run, (mcu_probe_run _ _ (mkWrapper false ON))
        by (cbn; now apply list_lookup_insert_eq).
      cbn [multi mret M_ret].
      match goal with
      | |- context [probe_cycles _ _ _ _ ?st] =>
          destruct (IH st ON ltac:(discriminate))
            as (s' & m' & Hrun & Hm' & Hprobes & Hp & Hr & Htr)
      end; [cbn; now apply list_lookup_insert_eq | rewrite Hrun].
      exists s', m'. split; [reflexivity|]. split; [exact Hm'|].
      cbn in Hprobes, Hp, Hr, Htr.
      rewrite list_insert_insert_eq in Hprobes. auto.
    + cbn [mret M_ret]. unfold probe_finish at 1.
      rewrite bind_run, bind_run, (mcu_probe_run _ _ _ Hw).
      cbn [multi mret M_ret].
      apply (IH s ON); [discriminate | exact Hw].
Qed.

Lemma deactivations_repeat n :
  deactivations (repeat ev_deactivate_gcode n) = n.
Proof.
  unfold deactivations. induction n as [|n IH]; cbn; [reflexivity|].
  now rewrite IH.
Qed.

(** X17.  With scripts that leave the toolhead where it was, a session
    begun on a wrapper out of multi-probe mode, used for [n] probing moves
    and ended with the same direction returns, has the wrappers as they
    were, and has run the deactivate script [n] times with
    [stow_on_each_sample] (after every move) and once without it (at the
    end of the session, also when no move was made). *)
Theorem session_stows_probe (d : string) (axis : Axis) (sense : Z)
    (n : nat) (s : State) (w : ProbeEndstopWrapper) :
  multi_probe_pending s = false ->
  direction_types !! d = Some (axis, sense) ->
  mcu_probes s !! axis_index axis = Some w ->
  multi w = OFF ->
  exists s',
    (start_probe_session d;;
     probe_cycles host activate_gcode n axis;;
     end_probe_session host d) s = (Ok tt, s')
    /\ multi_probe_pending s' = false
    /\ mcu_probes s' = mcu_probes s
    /\ deactivations (new_events s s')
       = (if stow_on_each_sample w then n else 1%nat).
Proof.
  intros Hp Hd Hw Hoff.
  rewrite bind_run, (start_probe_session_run _ _ _ _ _ Hp Hd Hw).
  rewrite bind_run.
  destruct w as [stow m]. cbn in Hoff. subst m.
  assert (Hlen : (axis_index axis < length (mcu_probes s))%nat)
    by (eapply lookup_lt_Some; eauto).
  destruct stow; cbn [stow_on_each_sample].
  - match goal with
    | |- context [probe_cycles _ _ _ _ ?st] =>
        destruct (probe_cycles_off axis true n st)
          as (s1 & Hrun & (Fp & Fr & Fm) & Htr)
    end; [exact Hw | rewrite Hrun].
    cbn in Fp, Fr, Fm, Htr.
    rewrite (end_probe_session_run host d axis sense) by (try exact Hd; exact Fp).
    rewrite (multi_probe_end_run host axis _ (mkWrapper true OFF))
      by (cbn; now rewrite Fm).
    cbn [stow_on_each_sample].
    eexists. split; [reflexivity|]. cbn. split; [reflexivity|].
    split; [exact Fm|].
    unfold new_events. cbn. rewrite Htr, drop_app_length.
    apply deactivations_repeat.
  - match goal with
    | |- context [probe_cycles _ _ _ _ ?st] =>
        destruct (probe_cycles_multi axis n st FIRST ltac:(discriminate))
          as (s1 & m' & Hrun & Hm' & Hprobes & Hp1 & Hr1 & Htr)
    end; [cbn; now apply list_lookup_insert_eq | rewrite Hrun].
    cbn in Hprobes, Hp1, Hr1, Htr.
    rewrite list_insert_insert_eq in Hprobes.
    rewrite (end_probe_session_run host d axis sense) by (try exact Hd; exact Hp1).
    rewrite (multi_probe_end_run host axis _ (mkWrapper false m'))
      by (cbn; rewrite Hprobes; now apply list_lookup_insert_eq).
    cbn [stow_on_each_sample toolhead_position set_results
         set_multi_probe_pending].
    rewrite Hdeact.
    eexists. split; [reflexivity|]. cbn. split; [reflexivity|]. split.
    + rewrite Hprobes, list_insert_insert_eq. now apply list_insert_id.
    + unfold new_events. cbn. rewrite Htr, drop_app_length. reflexivity.
Qed.
End WrapperFacts.

Lemma session_stows_probe_witness :
  exists s',
    (start_probe_session "x-";;
     probe_cycles host0 (fun p => p) 3 Axis0;;
     end_probe_session host0 "x-") st0 = (Ok tt, s')
    /\ multi_probe_pending s' = false
    /\ mcu_probes s' = mcu_probes st0
    /\ deactivations (new_events st0 s') = 1%nat.
Proof.
  apply (session_stows_probe host0 (fun p => p)
           ltac:(intros [x y z]; unfold Position_eqb; cbn;
                 now rewrite !Qeq_bool_refl)
           ltac:(intros [x y z]; unfold Position_eqb; cbn;
                 now rewrite !Qeq_bool_refl)
           "x-" Axis0 (-1) 3 st0 (mkWrapper false OFF));
    vm_compute; reflexivity.
Defined.

(** ** The numbers of the accuracy report *)

Lemma calc_probe_average_third_axis (positions : list Position)
    (method : string) :
  calc_probe_average positions method
  = _calculate_results positions method Axis2.
Proof.
  unfold calc_probe_average, _calculate_results.
  destruct (String.eqb method "median"); reflexivity.
Qed.

(** X19.  The module-level [calc_probe_average] computes what the
    session's [_calculate_results] computes for the third axis, for every
    list and method, errors included. *)
Theorem calc_probe_average_agrees (positions : list Position)
    (method : string) :
  calc_probe_average positions method
  = _calculate_results positions method Axis2.
Proof. apply calc_probe_average_third_axis. Qed.





(** ** What [run_probe] leaves alone *)

(** X21.  [run_probe] never ends or begins a session and never touches
    the wrappers: the pending flag and the wrappers are as before whether
    it returns or raises, the buffer has one more result when it returns
    and is as before when it raises. *)
Theorem run_probe_keeps_session (host : Host) (cfg : Config)
    (gcmd : GCodeCommand) (d : string) (s s' : State) (r : Result unit) :
  run_probe host cfg gcmd d s = (r, s') ->
  multi_probe_pending s' = multi_probe_pending s
  /\ mcu_probes s' = mcu_probes s
  /\ match r with
     | Ok _ => exists p, results s' = results s ++ [p]
     | Raise _ => results s' = results s
     end.
Proof.
  intros H. destruct r as [[]|e].
  - pose proof (run_probe_ok _ _ _ _ _ _ _ H) as (p & Hr & Hp).
    split; [exact Hp|]. split; [|eauto].
    unfold run_probe in H. rewrite bind_run in H. cbn [get_state] in H.
    rewrite bind_run in H.
    destruct (negb (multi_probe_pending s)); [discriminate|].
    cbn [mret M_ret] in H. rewrite bind_run in H. unfold lift at 1 in H.
    destruct (get_probe_params cfg gcmd) as [params|e0]; [|discriminate].
    destruct (direction_types !! d) as [[axis sense]|]; [|discriminate].
    rewrite bind_run, get_position_run, bind_run in H.
    destruct (run_probe_loop _ _ _ _ _ _ _ _ s) as [[positions|e1] s1] eqn:Hloop;
      [|discriminate].
    apply run_probe_loop_fuel in Hloop as [(_ & _ & Fm) _]; [|reflexivity].
    rewrite bind_run in H. unfold lift at 1 in H.
    destruct (_calculate_results _ _ _); [|discriminate].
    injection H as <-. exact Fm.
  - apply run_probe_raise in H as [(Fp & Fr & Fm) _]. auto.
Qed.

Lemma run_probe_keeps_session_witness :
  multi_probe_pending
    (run_probe host0 cfg2 dummy_gcode_cmd "x-" st_active).2 = true
  /\ mcu_probes (run_probe host0 cfg2 dummy_gcode_cmd "x-" st_active).2
     = wrappers0.
Proof.
  destruct (run_probe_keeps_session host0 cfg2 dummy_gcode_cmd "x-" st_active
              _ _ (surjective_pairing _)) as (H1 & H2 & _).
  split; [exact H1 | exact H2].
Defined.

(** ** The accuracy diagnostic on a cooperative machine *)

(** The command with SAMPLES=1 that [cmd_PROBE_ACCURACY] probes with. *)
Lemma fo_gcmd_params cfg gcmd params :
  get_probe_params cfg gcmd = Ok params ->
  get_probe_params cfg
    (mkGcmd (PROBE_SPEED gcmd) (MAX_DISTANCE gcmd) (LIFT_SPEED gcmd)
       (Some 1%Z) (SAMPLE_RETRACT_DIST gcmd) (SAMPLES_TOLERANCE gcmd)
       (SAMPLES_TOLERANCE_RETRIES gcmd) (SAMPLES_RESULT gcmd)
       (DIRECTION gcmd))
  = Ok (mkParams (probe_speed params) (lift_speed params)
          (max_distance params) 1 (sample_retract_dist params)
          (samples_tolerance params) (samples_tolerance_retries params)
          (samples_result params)).
Proof.
  unfold get_probe_params. cbn [PROBE_SPEED MAX_DISTANCE LIFT_SPEED SAMPLES
    SAMPLE_RETRACT_DIST SAMPLES_TOLERANCE SAMPLES_TOLERANCE_RETRIES
    SAMPLES_RESULT]. intros H.
  apply result_bind_ok in H as (v1 & -> & H).
  apply result_bind_ok in H as (v2 & -> & H).
  apply result_bind_ok in H as (v3 & -> & H).
  apply result_bind_ok in H as (v4 & _ & H).
  apply result_bind_ok in H as (v5 & -> & H).
  apply result_bind_ok in H as (v6 & -> & H).
  apply result_bind_ok in H as (v7 & -> & H).
  injection H as <-. reflexivity.
Qed.

Section CooperativeAccuracy.
Variable host : Host.
Variable cfg : Config.
Hypothesis Hcoop : cooperative host.

(** With one sample per point there is nothing to compare: [run_probe]
    returns. *)
Lemma run_probe_one_sample gcmd d axis sense s params :
  multi_probe_pending s = true ->
  get_probe_params cfg gcmd = Ok params ->
  samples params = 1%Z ->
  (0 <= samples_tolerance params)%Q ->
  direction_types !! d = Some (axis, sense) ->
  is_Some (mcu_probes s !! axis_index axis) ->
  exists s', run_probe host cfg gcmd d s = (Ok tt, s').
Proof.
  intros Hp Hparams Hs Htol Hd Hw.
  unfold run_probe. rewrite bind_run. cbn [get_state].
  rewrite bind_run, Hp. cbn [negb mret M_ret].
  rewrite bind_run. unfold lift at 1. rewrite Hparams, Hd.
  rewrite bind_run, get_position_run, bind_run.
  assert (Hb : exists fuel, loop_budget params 0 0 = S fuel).
  { unfold loop_budget. rewrite Hs. cbn [length].
    exists (Z.to_nat (samples_tolerance_retries params - 0) * 1)%nat. lia. }
  destruct Hb as [fuel ->].
  assert (Hg0 : loop_guard params [] = true)
    by (unfold loop_guard; rewrite Hs; reflexivity).
  assert (Hg1 : forall p, loop_guard params [p] = false)
    by (intros p; unfold loop_guard; rewrite Hs; reflexivity).
  cbn [run_probe_loop lv_positions]. rewrite Hg0.
  rewrite bind_run. unfold run_probe_body.
  destruct (bouncing_probe_returns host cfg Hcoop (probe_speed params) d
              axis sense s Hd Hw) as (pos & s1 & Hpos).
  rewrite bind_run, Hpos, bind_run, check_samples_tolerance_run.
  cbn [lv_positions app lv_retries lv_start_position].
  assert (Hsp : spread axis [pos]
                = Ok (get_axis pos axis - get_axis pos axis)%Q)
    by reflexivity.
  rewrite Hsp.
  assert (Hq : Qltb (samples_tolerance params)
                    (get_axis pos axis - get_axis pos axis) = false).
  { apply Qltb_ge. eapply Qle_trans; [|exact Htol].
    setoid_replace (get_axis pos axis - get_axis pos axis)%Q with 0%Q
      using relation Qeq by ring.
    apply Qle_refl. }
  rewrite Hq. rewrite bind_run. unfold retract. rewrite Hg1.
  cbn [mret M_ret].
  assert (Hloop : forall t,
            run_probe_loop host cfg fuel params d axis sense
              (mkLoop (toolhead_position s) 0 [pos]) t = (Ok [pos], t)).
  { intros t. destruct fuel; cbn [run_probe_loop lv_positions];
      rewrite Hg1; reflexivity. }
  rewrite Hloop, bind_run.
  destruct (calculate_results_nonempty [pos] (samples_result params) axis)
    as [r Hr]; [discriminate|].
  unfold lift. rewrite Hr. eexists. reflexivity.
Qed.

Lemma accuracy_loop_cooperative params fo d axis sense fo_params todo :
  get_probe_params cfg fo = Ok fo_params ->
  samples fo_params = 1%Z ->
  (0 <= samples_tolerance fo_params)%Q ->
  direction_types !! d = Some (axis, sense) ->
  forall s,
    multi_probe_pending s = true ->
    is_Some (mcu_probes s !! axis_index axis) ->
    exists s',
      accuracy_loop host cfg todo params fo d axis sense s = (Ok tt, s')
      /\ mcu_probes s' = mcu_probes s.
Proof.
  intros Hfo Hs Htol Hd.
  induction todo as [|todo IH]; intros s Hp Hw; cbn [accuracy_loop].
  - exists s. auto.
  - destruct (run_probe_one_sample fo d axis sense s fo_params Hp Hfo Hs
                Htol Hd Hw) as [s1 Hrun].
    rewrite bind_run, Hrun, bind_run, get_position_run, bind_run.
    rewrite manual_move_cooperative by exact Hcoop.
    pose proof (run_probe_ok _ _ _ _ _ _ _ Hrun) as (r & _ & Hp1).
    assert (Hm1 : mcu_probes s1 = mcu_probes s).
    { unfold run_probe in Hrun.  rewrite bind_run in Hrun.
      cbn [get_state] in Hrun. rewrite bind_run, Hp in Hrun.
      cbn [negb mret M_ret] in Hrun. rewrite bind_run in Hrun.
      unfold lift at 1 in Hrun. rewrite Hfo, Hd in Hrun.
      rewrite bind_run, get_position_run, bind_run in Hrun.
      destruct (run_probe_loop _ _ _ _ _ _ _ _ s) as [[ps|e1] t] eqn:Hloop;
        [|discriminate].
      apply run_probe_loop_fuel in Hloop as [(_ & _ & Fm) _]; [|reflexivity].
      rewrite bind_run in Hrun. unfold lift at 1 in Hrun.
      destruct (_calculate_results _ _ _); [|discriminate].
      injection Hrun as <-. exact Fm. }
    match goal with
    | |- context [accuracy_loop _ _ _ _ _ _ _ _ ?st] =>
        destruct (IH st) as (s' & Hloop & Hm)
    end.
    + cbn. congruence.
    + cbn. now rewrite Hm1.
    + exists s'. split; [exact Hloop|]. cbn in Hm. congruence.
Qed.

Lemma accuracy_statistics_nonempty axis positions :
  positions <> [] ->
  exists report, accuracy_statistics axis positions = Ok report.
Proof.
  intros Hne. unfold accuracy_statistics.
  destruct positions as [|p l]; [congruence|].
  cbn [map py_max_list py_min_list result_bind].
  rewrite !calc_probe_average_third_axis.
  destruct (calculate_results_nonempty (p :: l) "average" Axis2 Hne)
    as [avg ->].
  destruct (calculate_results_nonempty (p :: l) "median" Axis2 Hne)
    as [med ->].
  cbn [result_bind]. eexists. reflexivity.
Qed.

(** X22.  On a homed cartesian machine whose probe always finds a contact
    and whose toolhead accepts every move, with a deactivate script that
    leaves the toolhead where it was and a tolerance that is not negative,
    PROBE_ACCURACY with three samples or more, given to an idle helper in
    a known direction, returns its report and leaves the session idle and
    the buffer empty: it probes with SAMPLES=1, so that no tolerance can
    be exceeded. *)
Theorem probe_accuracy_cooperative (gcmd : GCodeCommand) (s : State)
    (params : Params) (axis : Axis) (sense : Z) (n : Z) :
  keeps_toolhead (deactivate_gcode host) ->
  multi_probe_pending s = false ->
  get_probe_params cfg gcmd = Ok params ->
  (0 <= samples_tolerance params)%Q ->
  direction_types !! default "z-" (DIRECTION gcmd) = Some (axis, sense) ->
  is_Some (mcu_probes s !! axis_index axis) ->
  get_int_minval "SAMPLES" (SAMPLES gcmd) 10 1 = Ok n ->
  (3 <= n)%Z ->
  exists report s',
    cmd_PROBE_ACCURACY host cfg gcmd s = (Ok report, s')
    /\ multi_probe_pending s' = false
    /\ results s' = [].
Proof.
  intros Hdeact Hp Hparams Htol Hd [w Hw] Hn H3.
  unfold cmd_PROBE_ACCURACY.
  rewrite bind_run. unfold lift at 1. rewrite Hparams.
  rewrite bind_run. unfold lookup_direction. rewrite Hd. cbn [mret M_ret].
  rewrite bind_run. unfold lift at 1. rewrite Hn.
  rewrite bind_run, (start_probe_session_run _ _ _ _ _ Hp Hd Hw).
  rewrite bind_run.
  pose proof (fo_gcmd_params _ _ _ Hparams) as Hfo.
  match goal with
  | |- context [accuracy_loop _ _ ?todo ?ps ?fo ?d ?ax ?se ?st] =>
      destruct (accuracy_loop_cooperative ps fo d ax se _ todo Hfo eq_refl
                  Htol Hd st) as (s2 & Hloop & Hm2)
  end.
  { reflexivity. }
  { cbn. destruct (stow_on_each_sample w); cbn;
      [eauto | apply lookup_lt_is_Some; rewrite length_insert;
               eapply lookup_lt_Some; eauto]. }
  rewrite Hloop.
  pose proof (accuracy_loop_ok _ _ _ _ _ _ _ _ _ _ _ Hloop)
    as (rs & Hlen & Hrs & Hp2).
  cbn in Hrs, Hp2.
  rewrite bind_run. unfold pull_probed_results at 1.
  rewrite bind_run. cbn [get_state]. rewrite bind_run. cbn [modify mret M_ret].
  rewrite Hrs. rewrite bind_run.
  destruct (Nat.ltb_spec (length rs) 3) as [Hlt|Hge]; [lia|].
  cbn [mret M_ret]. rewrite bind_run.
  assert (Hw2 : exists w2, mcu_probes s2 !! axis_index axis = Some w2).
  { rewrite Hm2. cbn. destruct (stow_on_each_sample w); cbn; [eauto|].
    eexists. apply list_lookup_insert_eq. eapply lookup_lt_Some; eauto. }
  destruct Hw2 as [w2 Hw2].
  rewrite (end_probe_session_run host _ axis sense) by (cbn; auto).
  rewrite (multi_probe_end_run host axis _ w2) by exact Hw2.
  cbn [toolhead_position set_results set_multi_probe_pending].
  rewrite Hdeact.
  destruct (accuracy_statistics_nonempty axis rs) as [report Hrep].
  { intros ->. cbn in Hge. lia. }
  unfold lift. rewrite Hrep.
  destruct (stow_on_each_sample w2); eexists _, _;
    (split; [reflexivity | split; reflexivity]).
Qed.
End CooperativeAccuracy.

Lemma probe_accuracy_cooperative_witness :
  exists report s',
    cmd_PROBE_ACCURACY host0 cfg0 accuracy_x st0 = (Ok report, s')
    /\ multi_probe_pending s' = false
    /\ results s' = [].
Proof.
  apply (probe_accuracy_cooperative host0 cfg0 host0_cooperative accuracy_x
           st0 (mkParams 5 5 10 4 2 0.1 0 "average") Axis0 (-1) 4).
  - intros [x y z]. unfold Position_eqb. cbn. now rewrite !Qeq_bool_refl.
  - reflexivity.
  - vm_compute. reflexivity.
  - vm_compute. discriminate.
  - vm_compute. reflexivity.
  - eexists. vm_compute. reflexivity.
  - vm_compute. reflexivity.
  - lia.
Defined.

(** ** Smaller facts about refinement and aggregation *)

(** X23.  The three retracts of a bounce refinement move along the probed
    axis only: on the other two axes each of them goes to the coordinates
    that the toolhead had when the refinement began, whatever positions
    the probing moves reported. *)
Theorem bouncing_probe_retracts_on_axis (host : Host) (cfg : Config)
    (v : Q) (d : string) (pos : Position) (s s' : State) :
  _bouncing_probe host cfg v d s = (Ok pos, s') ->
  exists axis sense,
    direction_types !! d = Some (axis, sense)
    /\ forall coord speed,
         In (ev_manual_move coord speed) (new_events s s') ->
         forall a, a <> axis ->
           get_axis coord a = get_axis (toolhead_position s) a.
Proof.
  intros H.
  apply bouncing_probe_ok in H
    as (axis & sense & t1 & t2 & t3 & c1 & c2 & Hd & ->).
  exists axis, sense. split; [exact Hd|].
  intros coord speed Hin a Ha.
  assert (Hne : axis <> a) by congruence.
  unfold new_events in Hin. cbn [trace emit] in Hin.
  rewrite !after_bounce_trace, <- !app_assoc, drop_app_length in Hin.
  cbn in Hin.
  repeat (destruct Hin as [Hin|Hin];
          [try discriminate; injection Hin as <- _;
           rewrite ?get_set_axis_other by exact Hne; reflexivity|]).
  contradiction.
Qed.

Lemma bouncing_probe_retracts_on_axis_witness :
  exists pos s',
    _bouncing_probe host0 cfg0 5 "x+" st0 = (Ok pos, s')
    /\ exists axis sense,
         direction_types !! "x+" = Some (axis, sense)
         /\ forall coord speed,
              In (ev_manual_move coord speed) (new_events st0 s') ->
              forall a, a <> axis ->
                get_axis coord a = get_axis (toolhead_position st0) a.
Proof.
  destruct (_bouncing_probe host0 cfg0 5 "x+" st0)
    as [[pos|e] s'] eqn:H; [|vm_compute in H; discriminate H].
  exists pos, s'. split; [reflexivity|].
  exact (bouncing_probe_retracts_on_axis host0 cfg0 5 "x+" pos st0 s' H).
Defined.

(** X24.  Of a single sample both aggregation methods return that sample:
    the median the very position, the mean a position with the same
    coordinates. *)
Theorem calculate_results_single (p : Position) (method : string)
    (axis : Axis) :
  exists r,
    _calculate_results [p] method axis = Ok r
    /\ Position_eq r p
    /\ (method = "median" -> r = p).
Proof.
  unfold _calculate_results.
  destruct (String.eqb_spec method "median") as [->|Hne].
  - exists p. split; [reflexivity|]. split; [|reflexivity].
    repeat split; reflexivity.
  - eexists. split; [reflexivity|]. split; [|contradiction].
    unfold Position_eq, mean_of, py_sum. cbn.
    repeat split; field.
Qed.
